(** * The iOutlet education dashboards: data pipeline

    A shallow embedding of the data-transformation layer of the two
    Streamlit scripts of the repository,

    - [my_dashboard1.py]  (module [Dashboard1]: the sentinel-exclusion
      variant, with the Trusts sheet), and
    - [my_dashboard .py]  (module [Dashboard]: the presence-based variant,
      with the four-way filter side bar),

    together with the pieces of Python's [str] and of pandas they call.

    Conventions of the embedding.
    - A text cell of a sheet is [option string]: [None] is the missing
      value (NaN) pandas puts in an object column, and the text columns
      are object columns (the [.str] accessor is defined on them).  Text
      is read as ASCII; a code unit above 127 is carried along as an
      uncased, non-blank character.
    - Money ([Item Total]) is a whole number, or missing, and sums are
      exact.  numpy adds a float64 or an int64 column; its sum is the
      exact one whenever the absolute values of the column add up to less
      than 2^53 ([Pandas.exact_sums]), and what is stated of sums computed
      in two ways is stated for such tables.
    - [Order Date] is the value left by [pd.to_datetime(..., errors='coerce')]:
      a calendar date, or missing (NaT). *)

From Stdlib Require Import List String Ascii ZArith QArith Bool Lia.
From Stdlib Require Import Sorting.Sorted Sorting.Permutation.
Import ListNotations.

Local Open Scope string_scope.
Local Open Scope Z_scope.

(** ** Python [str] methods used by the scripts *)
Module PyStr.

(** [str.isspace] on one ASCII character: TAB, LF, VT, FF, CR, the four
    separators FS, GS, RS, US, and the blank. *)
Definition is_space (c : ascii) : bool :=
  let n := N_of_ascii c in
  ((9 <=? n) && (n <=? 13) || (28 <=? n) && (n <=? 32))%N.

Definition is_upper (c : ascii) : bool :=
  let n := N_of_ascii c in ((65 <=? n) && (n <=? 90))%N.

Definition is_lower (c : ascii) : bool :=
  let n := N_of_ascii c in ((97 <=? n) && (n <=? 122))%N.

Definition is_cased (c : ascii) : bool := is_upper c || is_lower c.

Definition lower_char (c : ascii) : ascii :=
  if is_upper c then ascii_of_N (N_of_ascii c + 32) else c.

Definition upper_char (c : ascii) : ascii :=
  if is_lower c then ascii_of_N (N_of_ascii c - 32) else c.

(** [s.lower()] *)
Fixpoint lower (s : string) : string :=
  match s with
  | EmptyString => EmptyString
  | String c t => String (lower_char c) (lower t)
  end.

(** [s.lstrip()] *)
Fixpoint lstrip (s : string) : string :=
  match s with
  | EmptyString => EmptyString
  | String c t => if is_space c then lstrip t else s
  end.

(** [s.rstrip()] *)
Fixpoint rstrip (s : string) : string :=
  match s with
  | EmptyString => EmptyString
  | String c t =>
      match rstrip t with
      | EmptyString => if is_space c then EmptyString else String c EmptyString
      | t' => String c t'
      end
  end.

(** [s.strip()] *)
Definition strip (s : string) : string := rstrip (lstrip s).

(** [s.title()]: a cased character is upper-cased when the character before
    it is not cased, lower-cased otherwise. *)
Fixpoint title_from (previous_is_cased : bool) (s : string) : string :=
  match s with
  | EmptyString => EmptyString
  | String c t =>
      String (if previous_is_cased then lower_char c else upper_char c)
             (title_from (is_cased c) t)
  end.

Definition title (s : string) : string := title_from false s.

(** The text has ASCII characters only: there the methods above are
    Python's. *)
Fixpoint is_ascii (s : string) : bool :=
  match s with
  | EmptyString => true
  | String c t => (N_of_ascii c <? 128)%N && is_ascii t
  end.

End PyStr.

(** ** The Sales sheet *)

(** A text cell; [None] is NaN. *)
Definition cell := option string.

(** A parsed [Order Date]. *)
Record Date := mkDate { year : Z; month : Z; day : Z }.

(** One row of the Sales sheet, with the columns the pipeline reads.
    [extra] holds the cells of columns a script adds to the frame. *)
Record Row := mkRow {
  Order_ID     : option Z;
  Order_Date   : option Date;
  Item_Total   : option Z;
  Region       : cell;
  School_Type  : cell;
  Type_        : cell;
  School_Match : cell;
  Trust_Match  : cell;
  extra        : list (string * cell)
}.

(** A DataFrame: its column labels and its rows, in index order. *)
Record DataFrame := mkFrame {
  columns : list string;
  rows    : list Row
}.

(** ** The pandas operations used by the scripts *)
Module Pandas.

(** [Series.astype(str)]: NaN becomes the text ["nan"]. *)
Definition astype_str (c : cell) : string :=
  match c with Some s => s | None => "nan" end.

(** [Series.str.<method>()]: NaN stays NaN. *)
Definition str_map (f : string -> string) (c : cell) : cell :=
  match c with Some s => Some (f s) | None => None end.

(** [Series == value]: NaN compares unequal to everything. *)
Definition eq_val (c : cell) (v : string) : bool :=
  match c with Some s => String.eqb s v | None => false end.

(** [Series != value]: the negation, so it is [True] on NaN. *)
Definition ne_val (c : cell) (v : string) : bool := negb (eq_val c v).

(** [Series.notna()] *)
Definition notna {A} (c : option A) : bool :=
  match c with Some _ => true | None => false end.

(** [df[mask]]: a new frame with the rows where the mask holds. *)
Definition select (mask : Row -> bool) (df : DataFrame) : DataFrame :=
  {| columns := columns df; rows := filter mask (rows df) |}.

(** [df.copy()] *)
Definition copy (df : DataFrame) : DataFrame :=
  {| columns := columns df; rows := rows df |}.

(** The value a missing amount contributes to [sum()] (skipna). *)
Definition amount (r : Row) : Z :=
  match Item_Total r with Some v => v | None => 0 end.

(** [df['Item Total'].sum()], as the exact sum; see [exact_sums] for the
    tables on which numpy's sum is the exact one. *)
Definition sum_Item_Total (l : list Row) : Z :=
  fold_right (fun r acc => amount r + acc) 0 l.

(** [Series.dropna()] *)
Fixpoint dropna {A} (l : list (option A)) : list A :=
  match l with
  | [] => []
  | Some a :: t => a :: dropna t
  | None :: t => dropna t
  end.

(** [Series.unique()] keeps the first occurrence of each value, in order
    of appearance. *)
Fixpoint unique {A} (eqb : A -> A -> bool) (l : list A) : list A :=
  match l with
  | [] => []
  | x :: t => x :: filter (fun y => negb (eqb y x)) (unique eqb t)
  end.

(** [Series.nunique()]: the number of distinct values, NaN not counted. *)
Definition nunique_str (l : list cell) : Z :=
  Z.of_nat (List.length (unique String.eqb (dropna l))).

Definition nunique_Z (l : list (option Z)) : Z :=
  Z.of_nat (List.length (unique Z.eqb (dropna l))).

(** Group labels of [df.groupby(key)]: the distinct non-missing keys
    (dropna), in ascending order (sort). *)
Fixpoint insert_key (k : string) (l : list string) : list string :=
  match l with
  | [] => [k]
  | k' :: t => if String.leb k k' then k :: l else k' :: insert_key k t
  end.

Definition sort_keys (l : list string) : list string :=
  fold_right insert_key [] l.

Definition group_keys (key : Row -> cell) (l : list Row) : list string :=
  sort_keys (unique String.eqb (dropna (map key l))).

(** The rows of one group. *)
Definition group (key : Row -> cell) (k : string) (l : list Row) : list Row :=
  filter (fun r => eq_val (key r) k) l.

(** [df.groupby(key)[col].agg()]: one entry per group label. *)
Definition groupby {V} (key : Row -> cell) (agg : list Row -> V)
    (l : list Row) : list (string * V) :=
  map (fun k => (k, agg (group key k l))) (group_keys key l).

(** One [Series.sort_values(ascending=False)] on a Series without missing
    values: the one that keeps entries of equal value in the order they
    have in the Series.  The default sort kind of pandas is not stable and
    may order equal values otherwise; nothing is stated of this function
    that depends on the order of equal values, and the ranking of schools is
    stated for every sort ([sorts_descending]). *)
Fixpoint insert_desc {K} (x : K * Z) (l : list (K * Z)) : list (K * Z) :=
  match l with
  | [] => [x]
  | y :: t => if snd y <=? snd x then x :: l else y :: insert_desc x t
  end.

Definition sort_values_desc {K} (l : list (K * Z)) : list (K * Z) :=
  fold_right insert_desc [] l.

(** [Series.head(n)] *)
Definition head {A} (n : nat) (l : list A) : list A := firstn n l.

(** Months are counted from year 0: the month of a date, and the first day
    of a counted month. *)
Definition month_index (d : Date) : Z := year d * 12 + (month d - 1).

Definition month_start (m : Z) : Date :=
  {| year := m / 12; month := m mod 12 + 1; day := 1 |}.

Definition month_of (r : Row) : option Z :=
  option_map month_index (Order_Date r).

Definition in_month (m : Z) (r : Row) : bool :=
  match month_of r with Some m' => m' =? m | None => false end.

(** [df.resample('MS', on='Order Date')['Item Total'].sum()]: one bin per
    calendar month from the earliest to the latest date present, labelled
    by the first day of the month; rows without a date fall in no bin, and
    a month without rows sums to 0.  A frame without any row has the empty
    series.  This is the series of a frame that has a dated row; on a
    frame that has rows but no date at all pandas has no range of bins and
    raises, see [resample_MS_sum_result]. *)
Definition resample_MS_sum (l : list Row) : list (Date * Z) :=
  match dropna (map month_of l) with
  | [] => []
  | m :: ms =>
      let first := fold_right Z.min m ms in
      let last := fold_right Z.max m ms in
      map (fun i => let b := first + Z.of_nat i in
                    (month_start b, sum_Item_Total (filter (in_month b) l)))
          (seq 0 (Z.to_nat (last - first + 1)))
  end.

(** The sum of a Series' values. *)
Definition series_sum {K} (s : list (K * Z)) : Z :=
  fold_right (fun kv acc => snd kv + acc) 0 s.

(** What numpy's true division and multiplication give: a number, an
    infinity, or NaN.  Numbers are exact rationals. *)
Inductive number := Fin (q : Q) | Inf | NaN.

(** [numpy.int64(a) / b] for [a >= 0]: dividing by zero raises nothing and
    gives NaN for 0/0, an infinity otherwise. *)
Definition true_divide (a b : Z) : number :=
  if b =? 0 then (if a =? 0 then NaN else Inf)
  else Fin (inject_Z a / inject_Z b)%Q.

Definition times (x : number) (k : Z) : number :=
  match x with
  | Fin q => Fin (q * inject_Z k)%Q
  | Inf => if k =? 0 then NaN else Inf
  | NaN => NaN
  end.

(** [df.groupby(key).size()]: the number of rows of a group. *)
Definition size (g : list Row) : Z := Z.of_nat (List.length g).

(** [Series.value_counts()]: one entry per distinct value that is not
    missing, with the number of cells that hold it, in non-increasing order
    of that number.  The values are met in order of first appearance before
    the sort. *)
Definition value_counts (cells : list cell) : list (string * Z) :=
  sort_values_desc
    (map (fun v => (v, Z.of_nat (List.length (filter (fun c => eq_val c v) cells))))
         (unique String.eqb (dropna cells))).

(** [['All'] + sorted(Series.dropna().unique())], the choices of a select
    box. *)
Definition options (cells : list cell) : list string :=
  "All" :: sort_keys (unique String.eqb (dropna cells)).


(** The absolute values of a column of amounts, added up. *)
Definition abs_total (l : list Row) : Z :=
  fold_right (fun r acc => Z.abs (amount r) + acc) 0 l.

(** The sums over the rows of a table are exact in numpy: the amounts are
    whole numbers whose absolute values add up to less than 2^53, so that
    every intermediate sum, in any order of summation, with or without
    compensation, in float64 as in int64, is a whole number below 2^53. *)
Definition exact_sums (l : list Row) : Prop := abs_total l < 2 ^ 53.

(** A column on which the [.str] accessor exists: read from a sheet, a
    column is an object column when it has no cell at all or when it holds a
    text; a column of missing cells only is a float column. *)
Definition text_column (cells : list cell) : bool :=
  match cells with
  | [] => true
  | _ :: _ => existsb notna cells
  end.

(** [df.resample('MS', on='Order Date')['Item Total'].sum()] as it runs:
    [None] stands for the exception pandas raises on a frame that has rows
    but no date. *)
Definition resample_MS_sum_result (l : list Row) : option (list (Date * Z)) :=
  match l with
  | [] => Some []
  | _ :: _ =>
      if existsb (fun r => notna (Order_Date r)) l
      then Some (resample_MS_sum l)
      else None
  end.

End Pandas.

(** Column assignment [df[name] = values]. *)
Definition with_Region (r : Row) (v : cell) : Row :=
  {| Order_ID := Order_ID r; Order_Date := Order_Date r;
     Item_Total := Item_Total r; Region := v;
     School_Type := School_Type r; Type_ := Type_ r;
     School_Match := School_Match r; Trust_Match := Trust_Match r;
     extra := extra r |}.

Fixpoint set_assoc (name : string) (v : cell) (l : list (string * cell))
    : list (string * cell) :=
  match l with
  | [] => [(name, v)]
  | (n, w) :: t =>
      if String.eqb n name then (n, v) :: t else (n, w) :: set_assoc name v t
  end.

Fixpoint get_assoc (name : string) (l : list (string * cell)) : cell :=
  match l with
  | [] => None
  | (n, w) :: t => if String.eqb n name then w else get_assoc name t
  end.

Definition with_extra (r : Row) (name : string) (v : cell) : Row :=
  {| Order_ID := Order_ID r; Order_Date := Order_Date r;
     Item_Total := Item_Total r; Region := Region r;
     School_Type := School_Type r; Type_ := Type_ r;
     School_Match := School_Match r; Trust_Match := Trust_Match r;
     extra := set_assoc name v (extra r) |}.

(** [df['Region'] = f(df)]: the cells of the existing column are replaced,
    in the frame itself. *)
Definition assign_Region (f : Row -> cell) (df : DataFrame) : DataFrame :=
  {| columns := columns df;
     rows := map (fun r => with_Region r (f r)) (rows df) |}.

(** [df[name] = f(df)] for a label that is not one of the sheet's: the
    column is appended when the frame does not have it yet. *)
Definition assign_extra (name : string) (f : Row -> cell) (df : DataFrame)
    : DataFrame :=
  {| columns := if existsb (String.eqb name) (columns df) then columns df
                else columns df ++ [name];
     rows := map (fun r => with_extra r name (f r)) (rows df) |}.

(** [df[name]] for an appended column. *)
Definition column (name : string) (r : Row) : cell := get_assoc name (extra r).

(** ** my_dashboard1.py *)
Module Dashboard1.
Import Pandas.

(** [sales_df['School Match'].str.lower() != "no match"] *)
Definition edu_mask (r : Row) : bool :=
  ne_val (str_map PyStr.lower (School_Match r)) "no match".

(** [edu_df = sales_df[...]] *)
Definition edu_df (sales_df : DataFrame) : DataFrame :=
  select edu_mask sales_df.

(** [sales_df['Trust Match'].astype(str).str.strip().str.lower() == 'trust'] *)
Definition trust_mask (r : Row) : bool :=
  String.eqb (PyStr.lower (PyStr.strip (astype_str (Trust_Match r)))) "trust".

Definition trust_purchases (sales_df : DataFrame) : DataFrame :=
  select trust_mask sales_df.

Definition num_trust_purchases (sales_df : DataFrame) : Z :=
  Z.of_nat (List.length (rows (trust_purchases sales_df))).

Definition total_revenue (sales_df : DataFrame) : Z :=
  sum_Item_Total (rows sales_df).

Definition edu_revenue (edu : DataFrame) : Z :=
  sum_Item_Total (rows edu).

Definition schools_reached (edu : DataFrame) : Z :=
  nunique_str (map School_Match (rows edu)).

(** [edu_df.groupby('School Match')['Order ID'].nunique()] *)
Definition repeat_orders (edu : DataFrame) : list (string * Z) :=
  groupby School_Match (fun g => nunique_Z (map Order_ID g)) (rows edu).

(** [repeat_orders[repeat_orders > 1].count()] *)
Definition repeat_count (edu : DataFrame) : Z :=
  Z.of_nat (List.length (filter (fun kv => 1 <? snd kv) (repeat_orders edu))).

(** [(... / schools_reached) * 100 if schools_reached else 0] *)
Definition repeat_order_rate (edu : DataFrame) : number :=
  if negb (schools_reached edu =? 0)
  then times (true_divide (repeat_count edu) (schools_reached edu)) 100
  else Fin 0.

Definition monthly_sales (sales_df : DataFrame) : list (Date * Z) :=
  resample_MS_sum (rows sales_df).

Definition monthly_edu (edu : DataFrame) : list (Date * Z) :=
  resample_MS_sum (rows edu).

(** [edu_df['Region'] = edu_df['Region'].astype(str).str.strip().str.title()] *)
Definition clean_Region (edu : DataFrame) : DataFrame :=
  assign_Region
    (fun r => Some (PyStr.title (PyStr.strip (astype_str (Region r))))) edu.

(** [edu_df[(edu_df['Region'] != '') & (edu_df['Region'].str.lower() != 'nan')]] *)
Definition valid_regions_df (edu : DataFrame) : DataFrame :=
  select (fun r => ne_val (Region r) ""
                   && ne_val (str_map PyStr.lower (Region r)) "nan") edu.

Definition region_sales (edu : DataFrame) : list (string * Z) :=
  sort_values_desc (groupby Region sum_Item_Total (rows (valid_regions_df edu))).

Definition top_schools (edu : DataFrame) : list (string * Z) :=
  head 10 (sort_values_desc (groupby School_Match sum_Item_Total (rows edu))).

(** The side bar: [filtered_df = edu_df.copy()], then one equality filter
    per selection that is not ['All']. *)
Definition filtered_df (edu : DataFrame) (region_filter school_type_filter : string)
    : DataFrame :=
  let filtered := copy edu in
  let filtered :=
    if negb (String.eqb region_filter "All")
    then select (fun r => eq_val (Region r) region_filter) filtered
    else filtered in
  let filtered :=
    if negb (String.eqb school_type_filter "All")
    then select (fun r => eq_val (School_Type r) school_type_filter) filtered
    else filtered in
  filtered.

(** The variables of the script when it has run. *)
Record Session := mkSession {
  s_sales_df : DataFrame;
  s_edu_df : DataFrame;
  s_num_trust_purchases : Z;
  s_total_revenue : Z;
  s_edu_revenue : Z;
  s_schools_reached : Z;
  s_repeat_order_rate : number;
  s_monthly_sales : list (Date * Z);
  s_monthly_edu : list (Date * Z);
  s_region_sales : list (string * Z);
  s_top_schools : list (string * Z);
  s_filtered_df : DataFrame
}.

(** The script from the loaded Sales frame on, statement by statement.
    The one statement that writes to a frame is the assignment to
    [edu_df['Region']]; what follows it reads the frame as written. *)
Definition script (sales_df : DataFrame) (region_filter school_type_filter : string)
    : Session :=
  let edu0 := edu_df sales_df in
  let num_trust := num_trust_purchases sales_df in
  let total := total_revenue sales_df in
  let edu_rev := edu_revenue edu0 in
  let reached := schools_reached edu0 in
  let rate := repeat_order_rate edu0 in
  let m_sales := monthly_sales sales_df in
  let m_edu := monthly_edu edu0 in
  let edu1 := clean_Region edu0 in
  let regional := region_sales edu1 in
  let top := top_schools edu1 in
  let filtered := filtered_df edu1 region_filter school_type_filter in
  {| s_sales_df := sales_df; s_edu_df := edu1;
     s_num_trust_purchases := num_trust; s_total_revenue := total;
     s_edu_revenue := edu_rev; s_schools_reached := reached;
     s_repeat_order_rate := rate; s_monthly_sales := m_sales;
     s_monthly_edu := m_edu; s_region_sales := regional;
     s_top_schools := top; s_filtered_df := filtered |}.


(** ['Buyer Name' if 'Buyer Name' in sales_df.columns else 'School Match'];
    the cells of a Buyer Name column are held with the appended ones. *)
Definition buyer_col (sales_df : DataFrame) : Row -> cell :=
  if existsb (String.eqb "Buyer Name") (columns sales_df)
  then column "Buyer Name"
  else School_Match.

(** [trust_purchases.groupby(buyer_col).size()
      .sort_values(ascending=False).head(10)] *)
Definition top_buyers (sales_df : DataFrame) : list (string * Z) :=
  head 10 (sort_values_desc
             (groupby (buyer_col sales_df) size (rows (trust_purchases sales_df)))).

(** [edu_df["School Type"].dropna().value_counts()] *)
Definition school_types (edu : DataFrame) : list (string * Z) :=
  value_counts (map School_Type (rows edu)).

(** [edu_df["Region"].dropna().value_counts()] *)
Definition regions (edu : DataFrame) : list (string * Z) :=
  value_counts (map Region (rows edu)).

(** The cell that line 167 writes to the Region column of a row. *)
Definition cleaned_Region (r : Row) : cell :=
  Some (PyStr.title (PyStr.strip (astype_str (Region r)))).

(** [['All'] + sorted(edu_df['Region'].dropna().unique())] *)
Definition region_options (edu : DataFrame) : list string :=
  options (map Region (rows edu)).

(** [['All'] + sorted(edu_df['School Type'].dropna().unique())] *)
Definition school_type_options (edu : DataFrame) : list string :=
  options (map School_Type (rows edu)).

(** [top_schools] under a given sort of the grouped sums. *)
Definition top_schools_by
    (sort_values : list (string * Z) -> list (string * Z)) (edu : DataFrame)
    : list (string * Z) :=
  head 10 (sort_values (groupby School_Match sum_Item_Total (rows edu))).

(** [monthly_sales] and [monthly_edu] as they run. *)
Definition monthly_sales_result (sales_df : DataFrame)
    : option (list (Date * Z)) :=
  resample_MS_sum_result (rows sales_df).

Definition monthly_edu_result (edu : DataFrame) : option (list (Date * Z)) :=
  resample_MS_sum_result (rows edu).

End Dashboard1.

(** ** my_dashboard .py *)
Module Dashboard.
Import Pandas.

(** [sales_df['School Match'].notna()
     & (sales_df['School Match'].astype(str).str.strip() != "")] *)
Definition edu_mask (r : Row) : bool :=
  notna (School_Match r)
  && negb (String.eqb (PyStr.strip (astype_str (School_Match r))) "").

Definition edu_df (sales_df : DataFrame) : DataFrame :=
  select edu_mask sales_df.

Definition total_revenue (sales_df : DataFrame) : Z :=
  sum_Item_Total (rows sales_df).

Definition edu_revenue (edu : DataFrame) : Z :=
  sum_Item_Total (rows edu).

Definition schools_reached (edu : DataFrame) : Z :=
  nunique_str (map School_Match (rows edu)).

Definition repeat_orders (edu : DataFrame) : list (string * Z) :=
  groupby School_Match (fun g => nunique_Z (map Order_ID g)) (rows edu).

Definition repeat_count (edu : DataFrame) : Z :=
  Z.of_nat (List.length (filter (fun kv => 1 <? snd kv) (repeat_orders edu))).

(** [(repeat_orders[repeat_orders > 1].count() / schools_reached) * 100] *)
Definition repeat_order_rate (edu : DataFrame) : number :=
  times (true_divide (repeat_count edu) (schools_reached edu)) 100.

(** [edu_df['Trust Match'].str.strip().str.lower() == 'trust'], cell by
    cell, on a column that has the [.str] accessor; see
    [total_trust_matched_sales_result] for the statement as it runs. *)
Definition trust_mask (r : Row) : bool :=
  eq_val (str_map PyStr.lower (str_map PyStr.strip (Trust_Match r))) "trust".

(** [edu_df[...].shape[0]] *)
Definition total_trust_matched_sales (edu : DataFrame) : Z :=
  Z.of_nat (List.length (rows (select trust_mask edu))).

Definition monthly_sales (sales_df : DataFrame) : list (Date * Z) :=
  resample_MS_sum (rows sales_df).

Definition monthly_edu (edu : DataFrame) : list (Date * Z) :=
  resample_MS_sum (rows edu).

(** [sales_df['Region_clean'] = sales_df['Region'].astype(str).str.strip()] *)
Definition add_Region_clean (sales_df : DataFrame) : DataFrame :=
  assign_extra "Region_clean"
    (fun r => Some (PyStr.strip (astype_str (Region r)))) sales_df.

Definition region_sales_all (sales_df : DataFrame) : list (string * Z) :=
  sort_values_desc
    (groupby (column "Region_clean") sum_Item_Total (rows sales_df)).

Definition top_schools (edu : DataFrame) : list (string * Z) :=
  head 10 (sort_values_desc (groupby School_Match sum_Item_Total (rows edu))).

(** One selection of the side bar: ['All'] leaves the frame as it is, any
    other value keeps the rows whose cell equals it. *)
Definition apply_filter (col : Row -> cell) (choice : string) (df : DataFrame)
    : DataFrame :=
  if negb (String.eqb choice "All")
  then select (fun r => eq_val (col r) choice) df
  else df.

(** [filtered_df = sales_df.copy()], then Region, School Type, Type and
    Trust Match, in this order. *)
Definition filtered_df (sales_df : DataFrame)
    (region_filter school_type_filter type_filter trust_filter : string)
    : DataFrame :=
  let filtered := copy sales_df in
  let filtered := apply_filter Region region_filter filtered in
  let filtered := apply_filter School_Type school_type_filter filtered in
  let filtered := apply_filter Type_ type_filter filtered in
  let filtered := apply_filter Trust_Match trust_filter filtered in
  filtered.

Definition filtered_sales_total (filtered : DataFrame) : Z :=
  sum_Item_Total (rows filtered).

Definition filtered_sales_count (filtered : DataFrame) : Z :=
  Z.of_nat (List.length (rows filtered)).

(** The variables of the script when it has run. *)
Record Session := mkSession {
  s_sales_df : DataFrame;
  s_edu_df : DataFrame;
  s_total_revenue : Z;
  s_edu_revenue : Z;
  s_schools_reached : Z;
  s_repeat_order_rate : number;
  s_total_trust_matched_sales : Z;
  s_monthly_sales : list (Date * Z);
  s_monthly_edu : list (Date * Z);
  s_region_sales_all : list (string * Z);
  s_top_schools : list (string * Z);
  s_filtered_df : DataFrame
}.

(** The script from the loaded Sales frame on, statement by statement.
    The one statement that writes to a frame is the assignment of
    [sales_df['Region_clean']]; [edu_df] was selected before it and is a
    frame of its own. *)
Definition script (sales_df : DataFrame)
    (region_filter school_type_filter type_filter trust_filter : string)
    : Session :=
  let edu0 := edu_df sales_df in
  let total := total_revenue sales_df in
  let edu_rev := edu_revenue edu0 in
  let reached := schools_reached edu0 in
  let rate := repeat_order_rate edu0 in
  let trust := total_trust_matched_sales edu0 in
  let m_sales := monthly_sales sales_df in
  let m_edu := monthly_edu edu0 in
  let sales1 := add_Region_clean sales_df in
  let regional := region_sales_all sales1 in
  let top := top_schools edu0 in
  let filtered :=
    filtered_df sales1 region_filter school_type_filter type_filter trust_filter in
  {| s_sales_df := sales1; s_edu_df := edu0;
     s_total_revenue := total; s_edu_revenue := edu_rev;
     s_schools_reached := reached; s_repeat_order_rate := rate;
     s_total_trust_matched_sales := trust; s_monthly_sales := m_sales;
     s_monthly_edu := m_edu; s_region_sales_all := regional;
     s_top_schools := top; s_filtered_df := filtered |}.


(** [edu_df['School Type'].nunique()] and [edu_df['Type'].nunique()] *)
Definition total_schools_by_school_type (edu : DataFrame) : Z :=
  nunique_str (map School_Type (rows edu)).

Definition total_schools_by_type (edu : DataFrame) : Z :=
  nunique_str (map Type_ (rows edu)).

(** [edu_df[...Trust Match... == 'trust']['School Match'].nunique()] *)
Definition unique_trust_schools (edu : DataFrame) : Z :=
  nunique_str (map School_Match (rows (select trust_mask edu))).

(** [edu_df.shape[0]] *)
Definition num_sales_to_schools (edu : DataFrame) : Z :=
  Z.of_nat (List.length (rows edu)).

(** [edu_df["Type"].dropna().value_counts()] *)
Definition school_types (edu : DataFrame) : list (string * Z) :=
  value_counts (map Type_ (rows edu)).

(** [edu_df['Region'].value_counts()] *)
Definition orders_by_region (edu : DataFrame) : list (string * Z) :=
  value_counts (map Region (rows edu)).

(** The choices of the Region, School Type and Type select boxes, each
    computed from the frame as filtered so far. *)
Definition region_options (filtered : DataFrame) : list string :=
  options (map Region (rows filtered)).

Definition school_type_options (filtered : DataFrame) : list string :=
  options (map School_Type (rows filtered)).

Definition type_options (filtered : DataFrame) : list string :=
  options (map Type_ (rows filtered)).

(** [['All'] + sorted(filtered_df['Trust Match'].dropna().astype(str)
      .str.strip().loc[lambda x: x != ''].unique())] *)
Definition trust_options (filtered : DataFrame) : list string :=
  "All" :: sort_keys
             (unique String.eqb
                (filter (fun x => negb (String.eqb x ""))
                   (map PyStr.strip (dropna (map Trust_Match (rows filtered)))))).

(** Lines 100 and 101 as they run on the loaded Sales frame.  [edu_df]
    has the columns of [sales_df] with their types, so [.str] exists on its
    Trust Match column when it exists on that of [sales_df]; [None] stands
    for the AttributeError raised when it does not. *)
Definition total_trust_matched_sales_result (sales_df : DataFrame) : option Z :=
  if text_column (map Trust_Match (rows sales_df))
  then Some (total_trust_matched_sales (edu_df sales_df))
  else None.

Definition unique_trust_schools_result (sales_df : DataFrame) : option Z :=
  if text_column (map Trust_Match (rows sales_df))
  then Some (unique_trust_schools (edu_df sales_df))
  else None.

(** [top_schools] under a given sort of the grouped sums. *)
Definition top_schools_by
    (sort_values : list (string * Z) -> list (string * Z)) (edu : DataFrame)
    : list (string * Z) :=
  head 10 (sort_values (groupby School_Match sum_Item_Total (rows edu))).

(** [monthly_sales] and [monthly_edu] as they run. *)
Definition monthly_sales_result (sales_df : DataFrame)
    : option (list (Date * Z)) :=
  resample_MS_sum_result (rows sales_df).

Definition monthly_edu_result (edu : DataFrame) : option (list (Date * Z)) :=
  resample_MS_sum_result (rows edu).

End Dashboard.

(** ** load_data: the column labels *)
Module Loader.

(** [sales_df.columns = sales_df.columns.str.strip()] *)
Definition strip_columns (df : DataFrame) : DataFrame :=
  {| columns := map PyStr.strip (columns df); rows := rows df |}.

End Loader.


(** ** The rules as the specification words them *)
Module Spec.


(** Trust Match, after trimming and lower-casing, equals "trust". *)
Definition trust_rule (r : Row) : bool :=
  match Trust_Match r with
  | Some s => String.eqb (PyStr.lower (PyStr.strip s)) "trust"
  | None => false
  end.

(** Two entries of a ranking are in the order the ranking keeps: larger
    sum first, and for equal sums the smaller label first. *)
Definition ranked (a b : string * Z) : Prop :=
  snd b < snd a \/ (snd a = snd b /\ String.ltb (fst a) (fst b) = true).



(** A row meets one selection of the side bar. *)
Definition satisfies (col : Row -> cell) (choice : string) (r : Row) : bool :=
  String.eqb choice "All" || Pandas.eq_val (col r) choice.

(** A row meets every selection of a list. *)
Definition satisfies_all (cs : list ((Row -> cell) * string)) (r : Row) : bool :=
  forallb (fun c => satisfies (fst c) (snd c) r) cs.

(** The selections of a list applied one after the other. *)
Definition apply_filters (cs : list ((Row -> cell) * string)) (df : DataFrame)
    : DataFrame :=
  fold_left (fun d c => Dashboard.apply_filter (fst c) (snd c) d) cs df.

(** Two rows agree on every cell of the sheet's columns. *)
Definition same_sheet_cells (r r' : Row) : Prop :=
  Order_ID r' = Order_ID r /\ Order_Date r' = Order_Date r
  /\ Item_Total r' = Item_Total r /\ Region r' = Region r
  /\ School_Type r' = School_Type r /\ Type_ r' = Type_ r
  /\ School_Match r' = School_Match r /\ Trust_Match r' = Trust_Match r.



(** A chart counts the rows of a table by the value of a column: one entry
    per value present, with the number of rows that hold it, larger
    numbers first, all rows with a value counted once. *)
Definition counts_column (col : Row -> cell) (l : list Row)
    (chart : list (string * Z)) : Prop :=
  (forall v n,
      In (v, n) chart <->
      (exists r, In r l /\ col r = Some v)
      /\ n = Z.of_nat (List.length (filter (fun r => Pandas.eq_val (col r) v) l)))
  /\ (forall v n, In (v, n) chart -> 1 <= n)
  /\ StronglySorted (fun a b => snd b <= snd a) chart
  /\ NoDup (map fst chart)
  /\ Pandas.series_sum chart
     = Z.of_nat (List.length (filter (fun r => Pandas.notna (col r)) l)).

End Spec.

(** ** Sample sheets *)
Module Samples.

Definition sales_columns : list string :=
  ["Order ID"; "Order Date"; "Item Total"; "Region"; "School Type"; "Type";
   "School Match"; "Trust Match"].

(** A sale with a School Match, an Item Total, a Region and a Trust Match. *)
Definition sale (school : cell) (total : Z) (region trust : cell) : Row :=
  {| Order_ID := None; Order_Date := None; Item_Total := Some total;
     Region := region; School_Type := None; Type_ := None;
     School_Match := school; Trust_Match := trust; extra := [] |}.

Definition dated (d : Date) (r : Row) : Row :=
  {| Order_ID := Order_ID r; Order_Date := Some d;
     Item_Total := Item_Total r; Region := Region r;
     School_Type := School_Type r; Type_ := Type_ r;
     School_Match := School_Match r; Trust_Match := Trust_Match r;
     extra := extra r |}.

Definition oak_row : Row := sale (Some "Oak Primary") 100 (Some " london ") None.
Definition blank_row : Row := sale (Some "") 50 (Some "London") None.
Definition no_match_row : Row := sale (Some "no match") 25 (Some "Leeds") None.

(** The three sales of the example scenario. *)
Definition three_sales : DataFrame :=
  {| columns := sales_columns; rows := [oak_row; blank_row; no_match_row] |}.

(** Five sales to one school, with the Trust Match values of the example. *)
Definition five_trust_values : DataFrame :=
  {| columns := sales_columns;
     rows := map (sale (Some "Oak Primary") 1 (Some "Leeds"))
               [Some "Trust"; Some " trust "; Some "TRUST"; Some "";
                Some "Not Trust"] |}.

(** A trust purchase that is matched to no school. *)
Definition unmatched_trust_sale : DataFrame :=
  {| columns := sales_columns;
     rows := [sale (Some "") 40 (Some "Leeds") (Some "Trust")] |}.

(** A purchase matched to a school, and a refund matched to none. *)
Definition refund_row : Row := sale (Some "") (-30) (Some "Leeds") (Some "").
Definition refund_no_match_row : Row :=
  sale (Some "no match") (-30) (Some "Leeds") (Some "").

Definition with_refund : DataFrame :=
  {| columns := sales_columns; rows := [oak_row; refund_row] |}.

Definition with_refund_no_match : DataFrame :=
  {| columns := sales_columns; rows := [oak_row; refund_no_match_row] |}.



(** Sales with a blank and with a missing Region. *)
Definition odd_regions : DataFrame :=
  {| columns := sales_columns;
     rows := [sale (Some "Oak Primary") 10 (Some "  ") None;
              sale (Some "Oak Primary") 20 None None;
              sale (Some "Oak Primary") 5 (Some "Leeds") None] |}.

(** One sale of March 2024 and one whose date did not parse. *)
Definition march_sale : Row := dated (mkDate 2024 3 14) oak_row.
Definition undated_sale : Row := sale (Some "Elm Academy") 60 (Some "Leeds") None.

Definition one_undated : DataFrame :=
  {| columns := sales_columns; rows := [march_sale; undated_sale] |}.



(** Sales none of which is matched to a school. *)
Definition no_school : DataFrame :=
  {| columns := sales_columns; rows := [blank_row] |}.

(** A trust purchase whose Trust Match has blanks around it. *)
Definition padded_trust : DataFrame :=
  {| columns := sales_columns;
     rows := [sale (Some "Oak Primary") 40 (Some "Leeds") (Some " Trust ")] |}.

(** Sales of January and of March 2024, none of February. *)
Definition january_sale : Row := dated (mkDate 2024 1 9) no_match_row.

Definition winter_sales : DataFrame :=
  {| columns := sales_columns; rows := [march_sale; january_sale] |}.

End Samples.

(** * Properties *)

(** ** Text *)
Section Text.
Import PyStr.

Lemma is_space_lower_char c : is_space (lower_char c) = is_space c.
Proof.
  destruct c as [[] [] [] [] [] [] [] []]; reflexivity.
Qed.






End Text.

(** ** Frames, masks and sums *)
Section Frames.
Import Pandas.

Lemma in_select mask df r :
  In r (rows (select mask df)) <-> In r (rows df) /\ mask r = true.
Proof. unfold select; simpl. apply filter_In. Qed.

Lemma filter_twice {A} (f g : A -> bool) l :
  filter f (filter g l) = filter (fun x => g x && f x) l.
Proof.
  induction l as [|x l IH]; simpl; [reflexivity|].
  destruct (g x); simpl; [destruct (f x)|]; now rewrite IH.
Qed.

Lemma length_filter_le {A} (f : A -> bool) l :
  (List.length (filter f l) <= List.length l)%nat.
Proof.
  induction l as [|x l IH]; simpl; [lia|]. destruct (f x); simpl; lia.
Qed.

Lemma length_filter_mono {A} (f g : A -> bool) l :
  (forall x, f x = true -> g x = true) ->
  (List.length (filter f l) <= List.length (filter g l))%nat.
Proof.
  intros H. induction l as [|x l IH]; simpl; [lia|].
  destruct (f x) eqn:F.
  - rewrite (H x F). simpl. lia.
  - destruct (g x); simpl; lia.
Qed.


(** A sum splits into the part a mask keeps and the part it drops. *)
Lemma sum_split mask l :
  sum_Item_Total l
  = sum_Item_Total (filter mask l)
    + sum_Item_Total (filter (fun r => negb (mask r)) l).
Proof.
  induction l as [|x l IH]; simpl; [reflexivity|].
  destruct (mask x); simpl; lia.
Qed.

Lemma sum_nonneg l :
  Forall (fun r => 0 <= amount r) l -> 0 <= sum_Item_Total l.
Proof.
  induction 1 as [|x l Hx _ IH]; simpl; lia.
Qed.

Lemma sum_filter_le mask l :
  Forall (fun r => 0 <= amount r) l ->
  sum_Item_Total (filter mask l) <= sum_Item_Total l.
Proof.
  intros H. pose proof (sum_split mask l) as E.
  assert (0 <= sum_Item_Total (filter (fun r => negb (mask r)) l)); [|lia].
  apply sum_nonneg. rewrite Forall_forall in *.
  intros r Hr. apply filter_In in Hr. now apply H.
Qed.

Section Unique.
Context {A : Type} (eqb : A -> A -> bool).
Hypothesis eqb_spec : forall x y, eqb x y = true <-> x = y.

Lemma in_unique x l : In x (unique eqb l) <-> In x l.
Proof.
  induction l as [|y l IH]; simpl; [tauto|].
  rewrite filter_In, IH. split.
  - intros [E | [H _]]; auto.
  - intros [E | H]; [now left|].
    destruct (eqb x y) eqn:E; [left; symmetry; now apply eqb_spec|].
    right. now split.
Qed.

Lemma NoDup_unique l : NoDup (unique eqb l).
Proof.
  induction l as [|y l IH]; simpl; constructor.
  - rewrite filter_In. intros [_ H].
    assert (eqb y y = true) as E by now apply eqb_spec.
    now rewrite E in H.
  - now apply NoDup_filter.
Qed.

End Unique.

Lemma in_dropna {A} (x : A) l : In x (dropna l) <-> In (Some x) l.
Proof.
  induction l as [|[y|] l IH]; simpl.
  - tauto.
  - rewrite IH. split; intros [E | H]; auto; left; congruence.
  - rewrite IH. split; [auto | intros [E | H]; [discriminate | exact H]].
Qed.

End Frames.

(** ** The education subset *)
Section Education.
Import Pandas.


Lemma Dashboard_edu_mask_true r :
  Dashboard.edu_mask r = true <->
  (exists s, School_Match r = Some s /\ PyStr.strip s <> "").
Proof.
  unfold Dashboard.edu_mask, notna, astype_str.
  destruct (School_Match r) as [s|]; simpl.
  - rewrite negb_true_iff, String.eqb_neq. split.
    + intros H. now exists s.
    + intros (s' & [= <-] & H). exact H.
  - split; [discriminate | intros (s & E & _); discriminate].
Qed.




End Education.

(** ** Key figures *)
Section KeyFigures.
Import Pandas.



Lemma no_school_no_group edu :
  nunique_str (map School_Match (rows edu)) = 0 ->
  group_keys School_Match (rows edu) = [].
Proof.
  unfold nunique_str, group_keys. intros H.
  destruct (unique String.eqb (dropna (map School_Match (rows edu))));
    [reflexivity | simpl in H; lia].
Qed.

(** my_dashboard1.py guards the division. *)
Lemma Dashboard1_repeat_order_rate_guarded edu :
  Dashboard1.schools_reached edu = 0 ->
  Dashboard1.repeat_order_rate edu = Fin 0.
Proof.
  unfold Dashboard1.repeat_order_rate. intros ->. reflexivity.
Qed.

(** The other script divides whatever the count of schools. *)
Lemma Dashboard_repeat_order_rate_unguarded edu :
  Dashboard.schools_reached edu = 0 ->
  Dashboard.repeat_order_rate edu = NaN.
Proof.
  unfold Dashboard.repeat_order_rate, Dashboard.repeat_count,
    Dashboard.repeat_orders, Dashboard.schools_reached, groupby.
  intros H. rewrite (no_school_no_group _ H), H. reflexivity.
Qed.

(** C2, on the code: with sales but no school reached, my_dashboard1.py
    reports a repeat-order rate of 0, and the other script, which divides
    without a guard, computes NaN. *)
Theorem repeat_order_rate_without_schools :
  Dashboard1.schools_reached (Dashboard1.edu_df
     (mkFrame Samples.sales_columns [Samples.no_match_row])) = 0
  /\ Dashboard1.repeat_order_rate (Dashboard1.edu_df
     (mkFrame Samples.sales_columns [Samples.no_match_row])) = Fin 0
  /\ Dashboard.schools_reached (Dashboard.edu_df Samples.no_school) = 0
  /\ Dashboard.repeat_order_rate (Dashboard.edu_df Samples.no_school) = NaN.
Proof. repeat split. Qed.

Lemma Dashboard1_trust_mask_rule r :
  Dashboard1.trust_mask r = Spec.trust_rule r.
Proof.
  unfold Dashboard1.trust_mask, Spec.trust_rule, astype_str.
  destruct (Trust_Match r); reflexivity.
Qed.

Lemma Dashboard_trust_mask_rule r :
  Dashboard.trust_mask r = Spec.trust_rule r.
Proof.
  unfold Dashboard.trust_mask, Spec.trust_rule, eq_val, str_map.
  destruct (Trust_Match r); reflexivity.
Qed.

Lemma text_column_holds_text cells s :
  In (Some s) cells -> text_column cells = true.
Proof.
  intros I. destruct cells as [|c cells]; [reflexivity|].
  unfold text_column. apply existsb_exists. exists (Some s). now split.
Qed.

Lemma text_column_no_text cells :
  cells <> [] -> (forall c, In c cells -> c = None) -> text_column cells = false.
Proof.
  intros N A. destruct cells as [|c cells]; [contradiction|].
  unfold text_column. destruct (existsb notna (c :: cells)) eqn:E; [|reflexivity].
  apply existsb_exists in E. destruct E as (x & I & X).
  rewrite (A x I) in X. discriminate.
Qed.

(** C3, as the code has it, for tables whose School Match and Trust Match
    texts are ASCII.  my_dashboard1.py counts the trust-matched rows of the
    whole Sales table, 3 for the five example values.  The other script
    counts the trust-matched rows of the education subset only, which is
    never more (and is 3 too when the five sales are education sales), and
    it does so when the Trust Match column holds a text: on a table with
    rows and no Trust Match text it raises. *)
Theorem trust_matched_sales_counts (sales_df : DataFrame)
    (Hascii : forall r s, In r (rows sales_df) ->
                School_Match r = Some s \/ Trust_Match r = Some s ->
                PyStr.is_ascii s = true) :
  Dashboard1.num_trust_purchases sales_df
  = Z.of_nat (List.length (filter Spec.trust_rule (rows sales_df)))
  /\ ((exists r s, In r (rows sales_df) /\ Trust_Match r = Some s) ->
      Dashboard.total_trust_matched_sales_result sales_df
      = Some (Z.of_nat (List.length
          (filter (fun r => Dashboard.edu_mask r && Spec.trust_rule r)
                  (rows sales_df)))))
  /\ (rows sales_df <> [] ->
      (forall r, In r (rows sales_df) -> Trust_Match r = None) ->
      Dashboard.total_trust_matched_sales_result sales_df = None)
  /\ (forall n, Dashboard.total_trust_matched_sales_result sales_df = Some n ->
      n <= Dashboard1.num_trust_purchases sales_df)
  /\ Dashboard1.num_trust_purchases Samples.five_trust_values = 3
  /\ Dashboard.total_trust_matched_sales_result Samples.five_trust_values
     = Some 3.
Proof.
  assert (Dashboard1.num_trust_purchases sales_df
          = Z.of_nat (List.length (filter Spec.trust_rule (rows sales_df)))) as E1.
  { unfold Dashboard1.num_trust_purchases, Dashboard1.trust_purchases, select.
    simpl. do 2 f_equal. apply filter_ext, Dashboard1_trust_mask_rule. }
  assert (Dashboard.total_trust_matched_sales (Dashboard.edu_df sales_df)
          = Z.of_nat (List.length
              (filter (fun r => Dashboard.edu_mask r && Spec.trust_rule r)
                      (rows sales_df)))) as E2.
  { unfold Dashboard.total_trust_matched_sales, Dashboard.edu_df, select.
    simpl. rewrite filter_twice. do 2 f_equal.
    apply filter_ext. intros r. now rewrite Dashboard_trust_mask_rule. }
  split; [exact E1|]. split; [|split; [|split; [|split; reflexivity]]].
  - intros (r & s & I & E). unfold Dashboard.total_trust_matched_sales_result.
    rewrite (text_column_holds_text _ s), E2; [reflexivity|].
    apply in_map_iff. now exists r.
  - intros N A. unfold Dashboard.total_trust_matched_sales_result.
    rewrite text_column_no_text; [reflexivity | |].
    + destruct (rows sales_df); [contradiction | discriminate].
    + intros c I. apply in_map_iff in I. destruct I as (r & <- & I). now apply A.
  - intros n H. unfold Dashboard.total_trust_matched_sales_result in H.
    destruct (text_column (map Trust_Match (rows sales_df))); [|discriminate].
    injection H as <-. rewrite E1, E2. apply inj_le, length_filter_mono.
    intros r H. apply andb_true_iff in H. tauto.
Qed.

(** The five example values are ASCII. *)
Lemma trust_matched_sales_counts_witness :
  Dashboard1.num_trust_purchases Samples.five_trust_values
  = Z.of_nat (List.length (filter Spec.trust_rule (rows Samples.five_trust_values)))
  /\ Dashboard.total_trust_matched_sales_result Samples.five_trust_values
     = Some 3
  /\ Dashboard.total_trust_matched_sales_result Samples.three_sales = None.
Proof.
  assert (forall r s, In r (rows Samples.five_trust_values) ->
            School_Match r = Some s \/ Trust_Match r = Some s ->
            PyStr.is_ascii s = true) as A.
  { intros r s [<- | [<- | [<- | [<- | [<- | []]]]]] [[= <-] | [= <-]];
      reflexivity. }
  pose proof (trust_matched_sales_counts Samples.five_trust_values A) as T.
  split; [exact (proj1 T)|]. split; reflexivity.
Defined.

(** C3 fails as stated for the presence-based script: a trust purchase
    matched to no school is a trust-matched row of the Sales table, and the
    script counts none. *)
Lemma trust_matched_sales_scope :
  List.length (filter Spec.trust_rule (rows Samples.unmatched_trust_sale)) = 1%nat
  /\ Dashboard.total_trust_matched_sales_result Samples.unmatched_trust_sale
     = Some 0.
Proof. split; reflexivity. Qed.

(** C4, as the code has it: when the Item Totals are whole numbers that
    add up exactly and none is negative, education revenue is at most total
    revenue, in both scripts. *)
Theorem edu_revenue_le_total_revenue (sales_df : DataFrame)
    (Hexact : exact_sums (rows sales_df))
    (Hnonneg : Forall (fun r => 0 <= amount r) (rows sales_df)) :
  Dashboard1.edu_revenue (Dashboard1.edu_df sales_df)
    <= Dashboard1.total_revenue sales_df
  /\ Dashboard.edu_revenue (Dashboard.edu_df sales_df)
    <= Dashboard.total_revenue sales_df.
Proof.
  split; now apply sum_filter_le.
Qed.

(** The example scenario has no negative Item Total, and a total of 175. *)
Lemma edu_revenue_le_total_revenue_witness :
  exact_sums (rows Samples.three_sales)
  /\ Forall (fun r => 0 <= amount r) (rows Samples.three_sales)
  /\ Dashboard1.edu_revenue (Dashboard1.edu_df Samples.three_sales)
       <= Dashboard1.total_revenue Samples.three_sales
  /\ Dashboard.edu_revenue (Dashboard.edu_df Samples.three_sales)
       <= Dashboard.total_revenue Samples.three_sales.
Proof.
  assert (exact_sums (rows Samples.three_sales)) as X by reflexivity.
  assert (Forall (fun r => 0 <= amount r) (rows Samples.three_sales)) as H.
  { repeat constructor; discriminate. }
  split; [exact X|]. split; [exact H|].
  exact (edu_revenue_le_total_revenue Samples.three_sales X H).
Defined.

(** C4 fails as stated: a refund that is not an education sale lowers total
    revenue below education revenue, in either script. *)
Lemma edu_revenue_above_total_revenue :
  Dashboard.total_revenue Samples.with_refund
    < Dashboard.edu_revenue (Dashboard.edu_df Samples.with_refund)
  /\ Dashboard1.total_revenue Samples.with_refund_no_match
    < Dashboard1.edu_revenue (Dashboard1.edu_df Samples.with_refund_no_match).
Proof. split; reflexivity. Qed.




End KeyFigures.

(** ** Grouping and ranking *)
Section Ranking.
Import Pandas.

Lemma string_compare_refl s : String.compare s s = Eq.
Proof.
  induction s as [|c s IH]; simpl; [reflexivity|].
  unfold Ascii.compare. now rewrite N.compare_refl.
Qed.

Lemma string_compare_lt_trans a :
  forall b c, String.compare a b = Lt -> String.compare b c = Lt ->
              String.compare a c = Lt.
Proof.
  induction a as [|x a IH]; intros [|y b] [|z c]; simpl; try easy.
  unfold Ascii.compare.
  destruct (N.compare_spec (N_of_ascii x) (N_of_ascii y)) as [E1|L1|G1];
    try discriminate;
    destruct (N.compare_spec (N_of_ascii y) (N_of_ascii z)) as [E2|L2|G2];
    try discriminate; intros H1 H2.
  - rewrite E1, E2, N.compare_refl. eauto.
  - rewrite E1. now apply N.compare_lt_iff in L2 as ->.
  - rewrite <- E2. now apply N.compare_lt_iff in L1 as ->.
  - assert (N_of_ascii x < N_of_ascii z)%N as L by lia.
    now apply N.compare_lt_iff in L as ->.
Qed.

Lemma string_ltb_trans a b c :
  String.ltb a b = true -> String.ltb b c = true -> String.ltb a c = true.
Proof.
  unfold String.ltb. intros H1 H2.
  destruct (String.compare a b) eqn:E1; try discriminate.
  destruct (String.compare b c) eqn:E2; try discriminate.
  now rewrite (string_compare_lt_trans a b c E1 E2).
Qed.

(** Labels that differ are ordered one way or the other. *)
Lemma string_leb_ltb a b : String.leb a b = true -> a <> b -> String.ltb a b = true.
Proof.
  unfold String.leb, String.ltb. intros H N.
  destruct (String.compare a b) eqn:E; try easy.
  now apply String.compare_eq_iff in E.
Qed.

Lemma string_leb_false_ltb a b : String.leb a b = false -> String.ltb b a = true.
Proof.
  unfold String.leb, String.ltb. rewrite (String.compare_antisym b a).
  destruct (String.compare a b); simpl; easy.
Qed.

Lemma Forall_perm {A} (P : A -> Prop) l l' :
  Permutation l l' -> Forall P l -> Forall P l'.
Proof.
  intros H F. rewrite Forall_forall in *. intros x I. apply F.
  eapply Permutation_in; [symmetry; exact H | exact I].
Qed.

Lemma insert_key_perm k l : Permutation (insert_key k l) (k :: l).
Proof.
  induction l as [|x l IH]; simpl; [reflexivity|].
  destruct (String.leb k x); [reflexivity|].
  rewrite IH. apply perm_swap.
Qed.

Lemma sort_keys_perm l : Permutation (sort_keys l) l.
Proof.
  induction l as [|x l IH]; simpl; [reflexivity|].
  rewrite insert_key_perm. now constructor.
Qed.

Lemma insert_key_sorted k l :
  ~ In k l ->
  StronglySorted (fun a b => String.ltb a b = true) l ->
  StronglySorted (fun a b => String.ltb a b = true) (insert_key k l).
Proof.
  intros N S. induction S as [|x l S IH F]; simpl.
  - repeat constructor.
  - destruct (String.leb k x) eqn:E.
    + assert (String.ltb k x = true) as L.
      { apply string_leb_ltb; [exact E|]. intros ->. apply N. now left. }
      constructor; [now constructor|].
      constructor; [exact L|].
      eapply Forall_impl; [|exact F]. intros y. now apply string_ltb_trans.
    + constructor.
      * apply IH. intros I. apply N. now right.
      * apply (Forall_perm _ (k :: l)).
        { symmetry. apply insert_key_perm. }
        constructor; [now apply string_leb_false_ltb | exact F].
Qed.

Lemma sort_keys_sorted l :
  NoDup l -> StronglySorted (fun a b => String.ltb a b = true) (sort_keys l).
Proof.
  induction 1 as [|x l N D IH]; simpl; [constructor|].
  apply insert_key_sorted; [|exact IH].
  intros I. apply N. eapply Permutation_in; [apply sort_keys_perm | exact I].
Qed.

(** The labels of a grouping are the keys present, in ascending order. *)
Lemma in_group_keys key l k :
  In k (group_keys key l) <-> exists r, In r l /\ key r = Some k.
Proof.
  unfold group_keys. split.
  - intros H. apply (Permutation_in _ (sort_keys_perm _)) in H.
    apply (in_unique _ String.eqb_eq), in_dropna, in_map_iff in H.
    destruct H as (r & E & I). now exists r.
  - intros (r & I & E).
    apply (Permutation_in _ (Permutation_sym (sort_keys_perm _))).
    apply (in_unique _ String.eqb_eq), in_dropna, in_map_iff. now exists r.
Qed.

Lemma group_keys_sorted key l :
  StronglySorted (fun a b => String.ltb a b = true) (group_keys key l).
Proof.
  apply sort_keys_sorted, NoDup_unique, String.eqb_eq.
Qed.

Lemma in_groupby {V} key (agg : list Row -> V) l k v :
  In (k, v) (groupby key agg l) <->
  (exists r, In r l /\ key r = Some k) /\ v = agg (group key k l).
Proof.
  unfold groupby. rewrite in_map_iff. split.
  - intros (k' & [= <- <-] & I). split; [now apply in_group_keys | reflexivity].
  - intros (I & ->). exists k. split; [reflexivity | now apply in_group_keys].
Qed.

Lemma groupby_sorted {V} key (agg : list Row -> V) l :
  StronglySorted (fun a b => String.ltb (fst a) (fst b) = true)
                 (groupby key agg l).
Proof.
  unfold groupby. pose proof (group_keys_sorted key l) as S.
  induction S as [|k ks S IH F]; simpl; constructor; [exact IH|].
  apply Forall_map. exact F.
Qed.

Lemma insert_desc_perm {K} (x : K * Z) l : Permutation (insert_desc x l) (x :: l).
Proof.
  induction l as [|y l IH]; simpl; [reflexivity|].
  destruct (snd y <=? snd x); [reflexivity|].
  rewrite IH. apply perm_swap.
Qed.

Lemma sort_values_desc_perm {K} (l : list (K * Z)) :
  Permutation (sort_values_desc l) l.
Proof.
  induction l as [|x l IH]; simpl; [reflexivity|].
  rewrite insert_desc_perm. now constructor.
Qed.

Lemma insert_desc_sorted {K} (x : K * Z) l :
  StronglySorted (fun a b => snd b <= snd a) l ->
  StronglySorted (fun a b => snd b <= snd a) (insert_desc x l).
Proof.
  intros S. induction S as [|y l S IH F]; simpl.
  - repeat constructor.
  - destruct (snd y <=? snd x) eqn:E.
    + apply Z.leb_le in E. constructor; [now constructor|].
      constructor; [exact E|].
      eapply Forall_impl; [|exact F]. simpl. intros z. lia.
    + apply Z.leb_gt in E. constructor; [exact IH|].
      apply (Forall_perm _ (x :: l)).
      { symmetry. apply insert_desc_perm. }
      constructor; [lia | exact F].
Qed.

Lemma sort_values_desc_sorted {K} (l : list (K * Z)) :
  StronglySorted (fun a b => snd b <= snd a) (sort_values_desc l).
Proof.
  induction l as [|x l IH]; simpl; [constructor | now apply insert_desc_sorted].
Qed.

(** Sorting a Series whose labels ascend keeps tied entries in label
    order. *)
Lemma insert_desc_ranked (x : string * Z) l :
  Forall (fun y => String.ltb (fst x) (fst y) = true) l ->
  StronglySorted Spec.ranked l ->
  StronglySorted Spec.ranked (insert_desc x l).
Proof.
  intros L S. induction S as [|y l S IH F]; simpl.
  - repeat constructor.
  - inversion L as [|? ? Ly Ll]; subst.
    destruct (snd y <=? snd x) eqn:E.
    + apply Z.leb_le in E. constructor; [now constructor|].
      assert (Spec.ranked x y) as Rxy.
      { unfold Spec.ranked. destruct (Z.eq_dec (snd x) (snd y)); [right | left]; [tauto | lia]. }
      constructor; [exact Rxy|].
      rewrite Forall_forall in *. intros z Hz.
      specialize (F z Hz). specialize (Ll z Hz). unfold Spec.ranked in *.
      destruct (Z.eq_dec (snd x) (snd z)); [right; tauto | left; lia].
    + apply Z.leb_gt in E. constructor; [now apply IH|].
      apply (Forall_perm _ (x :: l)).
      { symmetry. apply insert_desc_perm. }
      constructor; [left; lia | exact F].
Qed.

Lemma sort_values_desc_ranked (l : list (string * Z)) :
  StronglySorted (fun a b => String.ltb (fst a) (fst b) = true) l ->
  StronglySorted Spec.ranked (sort_values_desc l).
Proof.
  induction 1 as [|x l S IH F]; simpl; [constructor|].
  apply insert_desc_ranked; [|exact IH].
  apply (Forall_perm _ l); [|exact F].
  symmetry. apply sort_values_desc_perm.
Qed.

Lemma firstn_sorted {A} (R : A -> A -> Prop) n l :
  StronglySorted R l -> StronglySorted R (firstn n l).
Proof.
  intros S. revert n. induction S as [|x l S IH F]; intros [|n]; simpl;
    try constructor; [apply IH|].
  rewrite Forall_forall in *. intros y Hy. apply F.
  rewrite <- (firstn_skipn n l). apply in_or_app. now left.
Qed.

End Ranking.

(** ** Top schools and regions *)
Section Breakdowns.
Import Pandas.

(** A column assignment that leaves the grouping key and the amounts alone
    leaves a grouped sum alone. *)
Lemma groupby_sum_map (f : Row -> Row) (key key' : Row -> cell) l :
  (forall r, key' (f r) = key r) ->
  (forall r, amount (f r) = amount r) ->
  groupby key' sum_Item_Total (map f l) = groupby key sum_Item_Total l.
Proof.
  intros Hk Ha. unfold groupby, group_keys.
  rewrite map_map, (map_ext _ _ Hk).
  apply map_ext. intros k. f_equal. unfold group.
  induction l as [|r l IH]; simpl; [reflexivity|].
  rewrite Hk. destruct (eq_val (key r) k); simpl; [rewrite Ha|]; now rewrite IH.
Qed.

Lemma get_set_assoc name v l : get_assoc name (set_assoc name v l) = v.
Proof.
  induction l as [|[n w] l IH]; simpl.
  - now rewrite String.eqb_refl.
  - destruct (String.eqb n name) eqn:E; simpl; rewrite E; [reflexivity | exact IH].
Qed.

Lemma top_schools_same edu : Dashboard1.top_schools edu = Dashboard.top_schools edu.
Proof. reflexivity. Qed.

Lemma top_schools_clean_Region edu :
  Dashboard1.top_schools (Dashboard1.clean_Region edu) = Dashboard1.top_schools edu.
Proof.
  unfold Dashboard1.top_schools, Dashboard1.clean_Region, assign_Region. simpl.
  now rewrite (groupby_sum_map _ School_Match School_Match).
Qed.






Lemma in_sort_values_desc {K} (x : K * Z) l :
  In x (sort_values_desc l) <-> In x l.
Proof.
  split; apply Permutation_in;
    [apply sort_values_desc_perm | symmetry; apply sort_values_desc_perm].
Qed.

Lemma valid_region_group k l :
  k <> "" -> PyStr.lower k <> "nan" ->
  filter (fun r => (ne_val (Region r) ""
                    && ne_val (str_map PyStr.lower (Region r)) "nan")
                   && eq_val (Region r) k) l
  = filter (fun r => eq_val (Region r) k) l.
Proof.
  intros N1 N2. apply filter_ext. intros r.
  unfold ne_val, eq_val, str_map.
  destruct (Region r) as [s|]; [|reflexivity].
  destruct (String.eqb s k) eqn:Es; [| now rewrite andb_false_r].
  apply String.eqb_eq in Es. subst s.
  apply String.eqb_neq in N1, N2. now rewrite N1, N2.
Qed.

Lemma sum_filter_map (f : Row -> Row) (p : Row -> bool) l :
  (forall r, amount (f r) = amount r) ->
  sum_Item_Total (filter p (map f l))
  = sum_Item_Total (filter (fun r => p (f r)) l).
Proof.
  intros A. induction l as [|r l IH]; simpl; [reflexivity|].
  destruct (p (f r)); simpl; [rewrite A|]; now rewrite IH.
Qed.

(** The entries of [region_sales], in terms of the frame it is given. *)
Lemma Dashboard1_region_sales_entries edu k v :
  In (k, v) (Dashboard1.region_sales edu) <->
  (exists r, In r (rows edu) /\ Region r = Some k)
  /\ k <> "" /\ PyStr.lower k <> "nan"
  /\ v = sum_Item_Total (filter (fun r => eq_val (Region r) k) (rows edu)).
Proof.
  unfold Dashboard1.region_sales, Dashboard1.valid_regions_df, select. simpl.
  rewrite in_sort_values_desc, in_groupby.
  unfold group. rewrite filter_twice. split.
  - intros [(r & I & E) ->]. apply filter_In in I. destruct I as [I M].
    rewrite E in M. unfold ne_val, eq_val, str_map in M.
    apply andb_true_iff in M. rewrite !negb_true_iff, !String.eqb_neq in M.
    destruct M as [M1 M2].
    split; [now exists r|]. split; [exact M1|]. split; [exact M2|].
    now rewrite valid_region_group.
  - intros ((r & I & E) & N1 & N2 & ->). split.
    + exists r. split; [|exact E]. apply filter_In. split; [exact I|].
      rewrite E. unfold ne_val, eq_val, str_map.
      apply String.eqb_neq in N1, N2. now rewrite N1, N2.
    + now rewrite valid_region_group.
Qed.

(** C6, as the code has it.  my_dashboard .py groups all sales by the
    trimmed Region text, case kept, a missing Region under "nan" and a blank
    one under the empty text, sums Item Total and sorts in non-increasing
    order: the three example sales give london 100, London 50 and Leeds 25.
    my_dashboard1.py groups the sales of the education subset only, by their
    trimmed and title-cased Region, leaves out the empty and the "nan"
    label, sums Item Total and sorts in non-increasing order: it gives the
    single bucket London 150 for the example. *)
Theorem regional_breakdown (sales_df : DataFrame) :
  (forall k v,
      In (k, v) (Dashboard.region_sales_all (Dashboard.add_Region_clean sales_df))
      <->
      (exists r, In r (rows sales_df)
                 /\ PyStr.strip (astype_str (Region r)) = k)
      /\ v = sum_Item_Total
               (filter (fun r => String.eqb (PyStr.strip (astype_str (Region r))) k)
                       (rows sales_df)))
  /\ StronglySorted (fun a b => snd b <= snd a)
       (Dashboard.region_sales_all (Dashboard.add_Region_clean sales_df))
  /\ (forall k v,
      In (k, v) (Dashboard1.region_sales
                   (Dashboard1.clean_Region (Dashboard1.edu_df sales_df)))
      <->
      (exists r, In r (rows sales_df) /\ Dashboard1.edu_mask r = true
                 /\ PyStr.title (PyStr.strip (astype_str (Region r))) = k)
      /\ k <> "" /\ PyStr.lower k <> "nan"
      /\ v = sum_Item_Total
               (filter (fun r =>
                          Dashboard1.edu_mask r
                          && String.eqb
                               (PyStr.title (PyStr.strip (astype_str (Region r))))
                               k)
                       (rows sales_df)))
  /\ StronglySorted (fun a b => snd b <= snd a)
       (Dashboard1.region_sales
          (Dashboard1.clean_Region (Dashboard1.edu_df sales_df)))
  /\ Dashboard.region_sales_all (Dashboard.add_Region_clean Samples.three_sales)
     = [("london", 100); ("London", 50); ("Leeds", 25)]
  /\ Dashboard.region_sales_all (Dashboard.add_Region_clean Samples.odd_regions)
     = [("nan", 20); ("", 10); ("Leeds", 5)]
  /\ Dashboard1.region_sales
       (Dashboard1.clean_Region (Dashboard1.edu_df Samples.three_sales))
     = [("London", 150)].
Proof.
  split.
  { intros k v. unfold Dashboard.region_sales_all, Dashboard.add_Region_clean,
      assign_extra. simpl.
    rewrite in_sort_values_desc.
    rewrite (groupby_sum_map _
               (fun r => Some (PyStr.strip (astype_str (Region r))))
               (column "Region_clean"));
      [| intros r; unfold column; simpl; apply get_set_assoc | reflexivity].
    rewrite in_groupby. unfold group, eq_val. split.
    - intros [(r & I & [= E]) ->]. split; [now exists r | reflexivity].
    - intros [(r & I & E) ->]. split; [exists r; now rewrite E | reflexivity]. }
  split; [apply sort_values_desc_sorted|].
  split.
  { intros k v. rewrite Dashboard1_region_sales_entries.
    unfold Dashboard1.clean_Region, assign_Region, Dashboard1.edu_df, select.
    simpl.
    rewrite sum_filter_map, filter_twice by reflexivity. simpl.
    split.
    - intros ((r' & I & E) & N1 & N2 & ->).
      apply in_map_iff in I. destruct I as (r & <- & I).
      apply filter_In in I. destruct I as [I M]. simpl in E.
      injection E as E.
      split; [now exists r|]. split; [exact N1|]. split; [exact N2|].
      reflexivity.
    - intros ((r & I & M & E) & N1 & N2 & ->).
      split; [|split; [exact N1|split; [exact N2 | reflexivity]]].
      exists (with_Region r
                (Some (PyStr.title (PyStr.strip (astype_str (Region r)))))).
      split; [|simpl; now rewrite E].
      apply in_map_iff. exists r. split; [reflexivity|].
      apply filter_In. now split. }
  split; [apply sort_values_desc_sorted|].
  split; [reflexivity|]. split; reflexivity.
Qed.

(** C6 fails as stated: in neither script does the example give a London
    bucket of 150 next to a Leeds bucket of 25.  The script that takes all
    sales keeps "london" and "London" apart, and the script that merges them
    leaves the Leeds sale, which is no education sale, out. *)
Lemma regional_breakdown_example :
  ~ In ("London", 150)
       (Dashboard.region_sales_all (Dashboard.add_Region_clean Samples.three_sales))
  /\ ~ In ("Leeds", 25)
       (Dashboard1.region_sales
          (Dashboard1.clean_Region (Dashboard1.edu_df Samples.three_sales))).
Proof.
  split; vm_compute; intuition discriminate.
Qed.

End Breakdowns.

(** ** The side bar filters *)
Section Filters.
Import Pandas.

Lemma frame_eq (d d' : DataFrame) :
  columns d = columns d' -> rows d = rows d' -> d = d'.
Proof. destruct d, d'; simpl; congruence. Qed.

Lemma copy_same df : copy df = df.
Proof. now apply frame_eq. Qed.

Lemma rows_apply_filter col choice df :
  rows (Dashboard.apply_filter col choice df)
  = filter (Spec.satisfies col choice) (rows df).
Proof.
  unfold Dashboard.apply_filter, Spec.satisfies.
  destruct (String.eqb choice "All"); simpl; [|reflexivity].
  symmetry. apply forallb_filter_id, forallb_forall. reflexivity.
Qed.

Lemma columns_apply_filter col choice df :
  columns (Dashboard.apply_filter col choice df) = columns df.
Proof.
  unfold Dashboard.apply_filter. now destruct (String.eqb choice "All").
Qed.

Lemma rows_apply_filters cs : forall df,
  rows (Spec.apply_filters cs df) = filter (Spec.satisfies_all cs) (rows df).
Proof.
  induction cs as [|c cs IH]; intros df; simpl.
  - symmetry. apply forallb_filter_id, forallb_forall. reflexivity.
  - unfold Spec.apply_filters in *. simpl.
    now rewrite IH, rows_apply_filter, filter_twice.
Qed.

Lemma columns_apply_filters cs : forall df,
  columns (Spec.apply_filters cs df) = columns df.
Proof.
  induction cs as [|c cs IH]; intros df; [reflexivity|].
  unfold Spec.apply_filters in *. simpl.
  now rewrite IH, columns_apply_filter.
Qed.

Lemma satisfies_all_perm cs cs' r :
  Permutation cs cs' -> Spec.satisfies_all cs r = Spec.satisfies_all cs' r.
Proof.
  unfold Spec.satisfies_all.
  induction 1 as [| c l l' _ IH | c c' l | l l' l'' _ IH1 _ IH2]; simpl.
  - reflexivity.
  - now rewrite IH.
  - now rewrite !andb_assoc, (andb_comm (Spec.satisfies (fst c') (snd c') r)).
  - now rewrite IH1.
Qed.

(** Selections commute: any order gives the same frame. *)
Lemma apply_filters_perm cs cs' df :
  Permutation cs cs' -> Spec.apply_filters cs df = Spec.apply_filters cs' df.
Proof.
  intros P. apply frame_eq.
  - now rewrite !columns_apply_filters.
  - rewrite !rows_apply_filters. apply filter_ext.
    intros r. now apply satisfies_all_perm.
Qed.

(** A selection that no row meets empties the frame. *)
Lemma apply_filters_absent cs df col v :
  In (col, v) cs -> v <> "All" ->
  (forall r, In r (rows df) -> col r <> Some v) ->
  rows (Spec.apply_filters cs df) = [].
Proof.
  intros I N A. rewrite rows_apply_filters.
  induction (rows df) as [|r l IH]; simpl; [reflexivity|].
  assert (Spec.satisfies_all cs r = false) as ->.
  { destruct (Spec.satisfies_all cs r) eqn:F; [|reflexivity].
    unfold Spec.satisfies_all in F.
    rewrite forallb_forall in F. specialize (F _ I). simpl in F.
    unfold Spec.satisfies in F. apply String.eqb_neq in N. rewrite N in F.
    simpl in F. unfold eq_val in F.
    destruct (col r) as [s|] eqn:E; [|discriminate].
    apply String.eqb_eq in F. subst s.
    exfalso. apply (A r); [now left | exact E]. }
  apply IH. intros r' I'. apply A. now right.
Qed.

Lemma Dashboard_filtered_df_filters sales_df rf sf tf uf :
  Dashboard.filtered_df sales_df rf sf tf uf
  = Spec.apply_filters
      [(Region, rf); (School_Type, sf); (Type_, tf); (Trust_Match, uf)] sales_df.
Proof.
  unfold Dashboard.filtered_df, Spec.apply_filters. simpl.
  now rewrite copy_same.
Qed.

Lemma Dashboard1_filtered_df_filters edu rf sf :
  Dashboard1.filtered_df edu rf sf
  = Spec.apply_filters [(Region, rf); (School_Type, sf)] edu.
Proof.
  unfold Dashboard1.filtered_df, Spec.apply_filters, Dashboard.apply_filter.
  simpl. now rewrite copy_same.
Qed.

(** C8: the filtered frame holds the rows that meet every selection;
    applying the selections in any order gives the same frame; and a
    selected value that no row of the base table has leaves no row, a
    filtered revenue of 0 and a filtered count of 0.  The same holds for
    the two selections of my_dashboard1.py. *)
Theorem filter_engine_conjunction (sales_df edu : DataFrame)
    (region_filter school_type_filter type_filter trust_filter : string) :
  rows (Dashboard.filtered_df sales_df region_filter school_type_filter
          type_filter trust_filter)
  = filter (fun r => Spec.satisfies Region region_filter r
                     && Spec.satisfies School_Type school_type_filter r
                     && Spec.satisfies Type_ type_filter r
                     && Spec.satisfies Trust_Match trust_filter r)
           (rows sales_df)
  /\ (forall cs,
      Permutation cs [(Region, region_filter); (School_Type, school_type_filter);
                      (Type_, type_filter); (Trust_Match, trust_filter)] ->
      Spec.apply_filters cs sales_df
      = Dashboard.filtered_df sales_df region_filter school_type_filter
          type_filter trust_filter)
  /\ (forall col v,
      In (col, v) [(Region, region_filter); (School_Type, school_type_filter);
                   (Type_, type_filter); (Trust_Match, trust_filter)] ->
      v <> "All" ->
      (forall r, In r (rows sales_df) -> col r <> Some v) ->
      rows (Dashboard.filtered_df sales_df region_filter school_type_filter
              type_filter trust_filter) = []
      /\ Dashboard.filtered_sales_total
           (Dashboard.filtered_df sales_df region_filter school_type_filter
              type_filter trust_filter) = 0
      /\ Dashboard.filtered_sales_count
           (Dashboard.filtered_df sales_df region_filter school_type_filter
              type_filter trust_filter) = 0)
  /\ rows (Dashboard1.filtered_df edu region_filter school_type_filter)
     = filter (fun r => Spec.satisfies Region region_filter r
                        && Spec.satisfies School_Type school_type_filter r)
              (rows edu)
  /\ (forall cs,
      Permutation cs [(Region, region_filter); (School_Type, school_type_filter)] ->
      Spec.apply_filters cs edu
      = Dashboard1.filtered_df edu region_filter school_type_filter)
  /\ (forall col v,
      In (col, v) [(Region, region_filter); (School_Type, school_type_filter)] ->
      v <> "All" ->
      (forall r, In r (rows edu) -> col r <> Some v) ->
      rows (Dashboard1.filtered_df edu region_filter school_type_filter) = []
      /\ sum_Item_Total
           (rows (Dashboard1.filtered_df edu region_filter school_type_filter)) = 0).
Proof.
  rewrite Dashboard_filtered_df_filters, Dashboard1_filtered_df_filters.
  split.
  { rewrite rows_apply_filters. apply filter_ext. intros r.
    unfold Spec.satisfies_all. simpl. now rewrite andb_true_r, !andb_assoc. }
  split; [intros cs P; now apply apply_filters_perm|].
  split.
  { intros col v I N A. unfold Dashboard.filtered_sales_total,
      Dashboard.filtered_sales_count.
    now rewrite (apply_filters_absent _ _ col v I N A). }
  split.
  { rewrite rows_apply_filters. apply filter_ext. intros r.
    unfold Spec.satisfies_all. simpl. now rewrite andb_true_r. }
  split; [intros cs P; now apply apply_filters_perm|].
  intros col v I N A. now rewrite (apply_filters_absent _ _ col v I N A).
Qed.

(** No sale of the example scenario is in region York. *)
Lemma filter_engine_conjunction_witness :
  rows (Dashboard.filtered_df Samples.three_sales "York" "All" "All" "All") = []
  /\ Dashboard.filtered_sales_total
       (Dashboard.filtered_df Samples.three_sales "York" "All" "All" "All") = 0
  /\ Dashboard.filtered_sales_count
       (Dashboard.filtered_df Samples.three_sales "York" "All" "All" "All") = 0.
Proof.
  destruct (filter_engine_conjunction Samples.three_sales Samples.three_sales
              "York" "All" "All" "All") as (_ & _ & H & _).
  apply (H Region "York").
  - simpl. now left.
  - discriminate.
  - intros r [<- | [<- | [<- | []]]]; discriminate.
Defined.

End Filters.

(** ** What the scripts write to their frames *)
Section FrameEffects.
Import Pandas.

Lemma Forall2_map_self {A} (R : A -> A -> Prop) f l :
  (forall x, R x (f x)) -> Forall2 R l (map f l).
Proof.
  intros H. induction l as [|x l IH]; simpl; constructor; auto.
Qed.

(** C9, as the code has it: selecting the education subset makes a frame
    of its own, and each script then writes to one frame in place.
    my_dashboard .py appends the column Region_clean to the Sales frame; the
    cells of the sheet's columns stay as they were, and so does the education
    subset.  my_dashboard1.py leaves the Sales frame as it was and replaces
    the Region cells of the education subset by their trimmed, title-cased
    text; the other cells and the columns stay as they were. *)
Theorem pipeline_frame_effects (sales_df : DataFrame)
    (region_filter school_type_filter type_filter trust_filter : string) :
  Dashboard.s_edu_df
    (Dashboard.script sales_df region_filter school_type_filter type_filter
       trust_filter) = Dashboard.edu_df sales_df
  /\ columns (Dashboard.s_sales_df
       (Dashboard.script sales_df region_filter school_type_filter type_filter
          trust_filter))
     = (if existsb (String.eqb "Region_clean") (columns sales_df)
        then columns sales_df
        else (columns sales_df ++ ["Region_clean"])%list)
  /\ Forall2
       (fun r r' =>
          Spec.same_sheet_cells r r'
          /\ column "Region_clean" r'
             = Some (PyStr.strip (astype_str (Region r))))
       (rows sales_df)
       (rows (Dashboard.s_sales_df
          (Dashboard.script sales_df region_filter school_type_filter
             type_filter trust_filter)))
  /\ Dashboard1.s_sales_df
       (Dashboard1.script sales_df region_filter school_type_filter) = sales_df
  /\ columns (Dashboard1.s_edu_df
       (Dashboard1.script sales_df region_filter school_type_filter))
     = columns (Dashboard1.edu_df sales_df)
  /\ rows (Dashboard1.s_edu_df
       (Dashboard1.script sales_df region_filter school_type_filter))
     = map (fun r =>
              with_Region r
                (Some (PyStr.title (PyStr.strip (astype_str (Region r))))))
           (rows (Dashboard1.edu_df sales_df)).
Proof.
  split; [reflexivity|]. split; [reflexivity|].
  split; [|repeat split].
  simpl. apply Forall2_map_self. intros r.
  split; [repeat split|]. unfold column. simpl. apply get_set_assoc.
Qed.

(** C9 fails as stated: after a run of my_dashboard .py the Sales frame has
    a column more than when it was loaded, and after a run of
    my_dashboard1.py the first row of the education subset has another
    Region than when the subset was selected. *)
Lemma pipeline_writes_in_place :
  columns (Dashboard.s_sales_df
     (Dashboard.script Samples.three_sales "All" "All" "All" "All"))
    = (Samples.sales_columns ++ ["Region_clean"])%list
  /\ Dashboard.s_sales_df
       (Dashboard.script Samples.three_sales "All" "All" "All" "All")
     <> Samples.three_sales
  /\ map Region (rows (Dashboard1.edu_df Samples.three_sales))
     = [Some " london "; Some "London"]
  /\ map Region (rows (Dashboard1.s_edu_df
       (Dashboard1.script Samples.three_sales "All" "All")))
     = [Some "London"; Some "London"]
  /\ Dashboard1.s_edu_df (Dashboard1.script Samples.three_sales "All" "All")
     <> Dashboard1.edu_df Samples.three_sales.
Proof.
  split; [reflexivity|]. split; [intros E; apply (f_equal columns) in E; discriminate E|].
  split; [reflexivity|]. split; [reflexivity|].
  intros E. apply (f_equal (fun d => map Region (rows d))) in E. discriminate E.
Qed.

End FrameEffects.

(** ** Monthly revenue *)
Section Monthly.
Import Pandas.

Lemma fold_min_le m ms x : In x (m :: ms) -> fold_right Z.min m ms <= x.
Proof.
  induction ms as [|y ms IH]; simpl.
  - intros [<- | []]. lia.
  - intros [<- | [<- | I]]; [| lia |].
    + assert (fold_right Z.min m ms <= m) by (apply IH; now left). lia.
    + assert (fold_right Z.min m ms <= x) by (apply IH; now right). lia.
Qed.

Lemma fold_max_ge m ms x : In x (m :: ms) -> x <= fold_right Z.max m ms.
Proof.
  induction ms as [|y ms IH]; simpl.
  - intros [<- | []]. lia.
  - intros [<- | [<- | I]]; [| lia |].
    + assert (m <= fold_right Z.max m ms) by (apply IH; now left). lia.
    + assert (x <= fold_right Z.max m ms) by (apply IH; now right). lia.
Qed.


Lemma sum_filter_none l : sum_Item_Total (filter (fun _ => false) l) = 0.
Proof. induction l; simpl; auto. Qed.

Lemma sum_filter_or p q l :
  (forall r, p r && q r = false) ->
  sum_Item_Total (filter p l) + sum_Item_Total (filter q l)
  = sum_Item_Total (filter (fun r => p r || q r) l).
Proof.
  intros D. induction l as [|r l IH]; simpl; [reflexivity|].
  specialize (D r). destruct (p r), (q r); simpl in *; try discriminate; lia.
Qed.


Lemma in_months l r d :
  In r l -> Order_Date r = Some d -> In (month_index d) (dropna (map month_of l)).
Proof.
  intros I E. apply in_dropna, in_map_iff. exists r. split; [|exact I].
  unfold month_of. now rewrite E.
Qed.











End Monthly.

(** ** More on text: trimming twice, title case *)
Section TextCases.
Import PyStr.

Lemma rstrip_idem s : rstrip (rstrip s) = rstrip s.
Proof.
  induction s as [|c t IH]; simpl; [reflexivity|].
  destruct (rstrip t) as [|c' t'] eqn:E.
  - destruct (is_space c) eqn:S; simpl; [reflexivity | now rewrite S].
  - simpl in *. now rewrite IH.
Qed.

(** Trimming on the right keeps a first character that is no blank. *)
Lemma lstrip_rstrip_lstrip s : lstrip (rstrip (lstrip s)) = rstrip (lstrip s).
Proof.
  induction s as [|c t IH]; simpl; [reflexivity|].
  destruct (is_space c) eqn:S; [exact IH|].
  simpl. destruct (rstrip t); rewrite ?S; simpl; now rewrite S.
Qed.

Lemma strip_idem s : strip (strip s) = strip s.
Proof.
  unfold strip. now rewrite lstrip_rstrip_lstrip, rstrip_idem.
Qed.

Lemma is_cased_lower_char c : is_cased (lower_char c) = is_cased c.
Proof. destruct c as [[] [] [] [] [] [] [] []]; reflexivity. Qed.

Lemma is_cased_upper_char c : is_cased (upper_char c) = is_cased c.
Proof. destruct c as [[] [] [] [] [] [] [] []]; reflexivity. Qed.

Lemma is_space_upper_char c : is_space (upper_char c) = is_space c.
Proof. destruct c as [[] [] [] [] [] [] [] []]; reflexivity. Qed.

Lemma lower_lower_char c : lower_char (lower_char c) = lower_char c.
Proof. destruct c as [[] [] [] [] [] [] [] []]; reflexivity. Qed.

Lemma lower_upper_char c : lower_char (upper_char c) = lower_char c.
Proof. destruct c as [[] [] [] [] [] [] [] []]; reflexivity. Qed.

Lemma upper_upper_char c : upper_char (upper_char c) = upper_char c.
Proof. destruct c as [[] [] [] [] [] [] [] []]; reflexivity. Qed.

Lemma upper_lower_char c : upper_char (lower_char c) = upper_char c.
Proof. destruct c as [[] [] [] [] [] [] [] []]; reflexivity. Qed.

Lemma space_not_cased c : is_space c = true -> is_cased c = false.
Proof.
  destruct c as [[] [] [] [] [] [] [] []]; intros H;
    first [reflexivity | discriminate H].
Qed.

(** The case a character gets in a title. *)
Lemma title_char_space (b : bool) c :
  is_space (if b then lower_char c else upper_char c) = is_space c.
Proof. destruct b; [apply is_space_lower_char | apply is_space_upper_char]. Qed.

Lemma title_char_cased (b : bool) c :
  is_cased (if b then lower_char c else upper_char c) = is_cased c.
Proof. destruct b; [apply is_cased_lower_char | apply is_cased_upper_char]. Qed.

Lemma title_from_idem s : forall b,
  title_from b (title_from b s) = title_from b s.
Proof.
  induction s as [|c t IH]; intros b; simpl; [reflexivity|].
  rewrite title_char_cased, IH. f_equal.
  destruct b; [apply lower_lower_char | apply upper_upper_char].
Qed.

Lemma lower_title_from s : forall b, lower (title_from b s) = lower s.
Proof.
  induction s as [|c t IH]; intros b; simpl; [reflexivity|].
  rewrite IH. f_equal.
  destruct b; [apply lower_lower_char | apply lower_upper_char].
Qed.

(** A title depends on the text up to case only. *)
Lemma title_from_lower s : forall b, title_from b (lower s) = title_from b s.
Proof.
  induction s as [|c t IH]; intros b; simpl; [reflexivity|].
  rewrite is_cased_lower_char, IH. f_equal.
  destruct b; [apply lower_lower_char | apply upper_lower_char].
Qed.

Lemma lstrip_title s : lstrip (title s) = title (lstrip s).
Proof.
  unfold title. induction s as [|c t IH]; simpl; [reflexivity|].
  rewrite is_space_upper_char. destruct (is_space c) eqn:S; [|reflexivity].
  now rewrite (space_not_cased c S).
Qed.

Lemma rstrip_title_from s : forall b,
  rstrip (title_from b s) = title_from b (rstrip s).
Proof.
  induction s as [|c t IH]; intros b; simpl; [reflexivity|].
  rewrite IH, title_char_space.
  destruct (rstrip t); simpl; [destruct (is_space c)|]; reflexivity.
Qed.

Lemma strip_title s : strip (title s) = title (strip s).
Proof.
  unfold strip. rewrite lstrip_title. apply rstrip_title_from.
Qed.

Lemma title_idem s : title (title s) = title s.
Proof. apply title_from_idem. Qed.

Lemma lower_title s : lower (title s) = lower s.
Proof. apply lower_title_from. Qed.

(** Two texts have the same title exactly when they agree up to case. *)
Lemma title_eq_iff a b : title a = title b <-> lower a = lower b.
Proof.
  split; intros H.
  - now rewrite <- (lower_title a), <- (lower_title b), H.
  - unfold title. now rewrite <- (title_from_lower a), <- (title_from_lower b), H.
Qed.

End TextCases.

(** ** Column labels, the subset and the cleaned regions *)
Section Cleaning.
Import Pandas.

(** X1 (load_data): trimming the column labels a second time changes
    nothing; every label it leaves is free of blanks at both ends; a label
    that had blanks around it is there under its trimmed name; and the rows
    are not touched. *)
Theorem strip_columns_normalises (df : DataFrame) :
  Loader.strip_columns (Loader.strip_columns df) = Loader.strip_columns df
  /\ (forall h, In h (columns (Loader.strip_columns df)) -> PyStr.strip h = h)
  /\ (forall h, In h (columns df) ->
        In (PyStr.strip h) (columns (Loader.strip_columns df)))
  /\ rows (Loader.strip_columns df) = rows df.
Proof.
  unfold Loader.strip_columns. simpl. split; [|split; [|split]].
  - f_equal. rewrite map_map. apply map_ext, strip_idem.
  - intros h H. apply in_map_iff in H. destruct H as (h' & <- & _).
    apply strip_idem.
  - intros h H. now apply in_map.
  - reflexivity.
Qed.

Lemma filter_idem {A} (f : A -> bool) l : filter f (filter f l) = filter f l.
Proof.
  rewrite filter_twice. apply filter_ext. intros x. now destruct (f x).
Qed.


Lemma clean_Region_rows edu :
  rows (Dashboard1.clean_Region edu)
  = map (fun r => with_Region r (Dashboard1.cleaned_Region r)) (rows edu).
Proof. reflexivity. Qed.

Lemma cleaned_Region_again r :
  Dashboard1.cleaned_Region (with_Region r (Dashboard1.cleaned_Region r))
  = Dashboard1.cleaned_Region r.
Proof.
  unfold Dashboard1.cleaned_Region. simpl.
  now rewrite strip_title, strip_idem, title_idem.
Qed.

(** X3 (my_dashboard1.py, line 167): cleaning the Region column of a frame
    that has been cleaned changes nothing. *)
Theorem clean_Region_idempotent (edu : DataFrame) :
  Dashboard1.clean_Region (Dashboard1.clean_Region edu)
  = Dashboard1.clean_Region edu.
Proof.
  apply frame_eq; [reflexivity|].
  rewrite !clean_Region_rows, map_map. apply map_ext. intros r.
  now rewrite cleaned_Region_again.
Qed.

(** X4 (my_dashboard1.py, line 167): two sales get the same cleaned Region
    exactly when their Regions agree after trimming and lower-casing, a
    missing Region standing for the text "nan". *)
Theorem cleaned_Region_merges (r1 r2 : Row) :
  Dashboard1.cleaned_Region r1 = Dashboard1.cleaned_Region r2 <->
  PyStr.lower (PyStr.strip (astype_str (Region r1)))
  = PyStr.lower (PyStr.strip (astype_str (Region r2))).
Proof.
  unfold Dashboard1.cleaned_Region. rewrite <- title_eq_iff.
  split; [intros [= H]; exact H | intros ->; reflexivity].
Qed.

Lemma lower_empty s : PyStr.lower s = "" <-> s = "".
Proof. destruct s; simpl; split; congruence. Qed.

Lemma title_empty s : PyStr.title s = "" <-> s = "".
Proof. unfold PyStr.title. destruct s; simpl; split; congruence. Qed.

(** X5 (my_dashboard1.py, line 168): of the cleaned education subset, the
    regional breakdown keeps the sales whose Region was present, not blank,
    and not the text "nan" in any case; a sale without Region, which the
    cleaning has given the Region "Nan", is left out. *)
Theorem valid_regions_df_rows (edu : DataFrame) (r' : Row) :
  In r' (rows (Dashboard1.valid_regions_df (Dashboard1.clean_Region edu)))
  <->
  exists r, In r (rows edu)
    /\ r' = with_Region r (Dashboard1.cleaned_Region r)
    /\ exists s, Region r = Some s /\ PyStr.strip s <> ""
                 /\ PyStr.lower (PyStr.strip s) <> "nan".
Proof.
  unfold Dashboard1.valid_regions_df. rewrite in_select, clean_Region_rows, in_map_iff.
  assert (forall r,
    (ne_val (Region (with_Region r (Dashboard1.cleaned_Region r))) ""
     && ne_val (str_map PyStr.lower
                  (Region (with_Region r (Dashboard1.cleaned_Region r)))) "nan"
     = true)
    <-> exists s, Region r = Some s /\ PyStr.strip s <> ""
                  /\ PyStr.lower (PyStr.strip s) <> "nan") as M.
  { intros r. unfold Dashboard1.cleaned_Region, ne_val, eq_val, str_map. simpl.
    rewrite andb_true_iff, !negb_true_iff, !String.eqb_neq.
    rewrite lower_title, title_empty.
    destruct (Region r) as [s|]; simpl.
    - split; [intros [H1 H2]; now exists s|].
      intros (s' & [= <-] & H1 & H2). now split.
    - split; [intros [_ H]; now elim H | intros (s & E & _); discriminate]. }
  split.
  - intros [(r & <- & I) H]. exists r. split; [exact I|].
    split; [reflexivity | now apply M].
  - intros (r & I & -> & H). split; [now exists r | now apply M].
Qed.

End Cleaning.

(** ** Counting rows by value *)
Section Counting.
Import Pandas.

Lemma length_filter_or {A} (p q : A -> bool) l :
  (forall x, p x && q x = false) ->
  (List.length (filter p l) + List.length (filter q l)
   = List.length (filter (fun x => p x || q x) l))%nat.
Proof.
  intros D. induction l as [|x l IH]; simpl; [reflexivity|].
  specialize (D x). destruct (p x), (q x); simpl in *; try discriminate; lia.
Qed.

Lemma existsb_eq_val c ks :
  existsb (eq_val c) ks = true <-> exists k, c = Some k /\ In k ks.
Proof.
  rewrite existsb_exists. unfold eq_val. split.
  - intros (k & I & E). destruct c as [s|]; [|discriminate].
    apply String.eqb_eq in E. subst. now exists k.
  - intros (k & -> & I). exists k. split; [exact I | apply String.eqb_refl].
Qed.

(** The counts of distinct values add up to the number of items that hold
    one of them. *)
Lemma series_sum_counts {A} (key : A -> cell) l ks :
  NoDup ks ->
  series_sum
    (map (fun k => (k, Z.of_nat
                         (List.length (filter (fun x => eq_val (key x) k) l)))) ks)
  = Z.of_nat (List.length (filter (fun x => existsb (eq_val (key x)) ks) l)).
Proof.
  induction 1 as [|k ks N D IH]; simpl.
  - induction l; simpl; auto.
  - rewrite IH, <- Nat2Z.inj_add, length_filter_or; [reflexivity|].
    intros x. destruct (eq_val (key x) k) eqn:E; [|reflexivity].
    destruct (existsb (eq_val (key x)) ks) eqn:X; [|reflexivity].
    apply existsb_eq_val in X. destruct X as (k' & Ek & I).
    unfold eq_val in E. rewrite Ek in E. apply String.eqb_eq in E.
    subst. contradiction.
Qed.

Lemma series_sum_counts_all {A} (key : A -> cell) l ks :
  NoDup ks ->
  (forall x k, In x l -> key x = Some k -> In k ks) ->
  series_sum
    (map (fun k => (k, Z.of_nat
                         (List.length (filter (fun x => eq_val (key x) k) l)))) ks)
  = Z.of_nat (List.length (filter (fun x => notna (key x)) l)).
Proof.
  intros N C. rewrite (series_sum_counts key l ks N).
  do 2 f_equal. apply filter_ext_in. intros x I.
  destruct (key x) as [k|] eqn:E; simpl.
  - apply existsb_eq_val. exists k. split; [reflexivity | now apply (C x)].
  - destruct (existsb (eq_val None) ks) eqn:X; [|reflexivity].
    apply existsb_eq_val in X. destruct X as (k & Ek & _). discriminate.
Qed.

Lemma series_sum_perm {K} (s s' : list (K * Z)) :
  Permutation s s' -> series_sum s = series_sum s'.
Proof.
  induction 1; simpl; lia.
Qed.

Lemma series_sum_firstn {K} n (s : list (K * Z)) :
  Forall (fun e => 0 <= snd e) s -> series_sum (firstn n s) <= series_sum s.
Proof.
  intros F. revert n. induction F as [|e s He F IH]; intros [|n]; simpl; try lia.
  - assert (0 <= series_sum s); [|lia].
    clear IH. induction F; simpl; lia.
  - specialize (IH n). lia.
Qed.

Lemma group_keys_NoDup key l : NoDup (group_keys key l).
Proof.
  unfold group_keys. eapply Permutation_NoDup.
  - symmetry. apply sort_keys_perm.
  - apply NoDup_unique, String.eqb_eq.
Qed.

(** Group sizes add up to the number of rows that have a key. *)
Lemma groupby_size_sum key l :
  series_sum (groupby key size l)
  = Z.of_nat (List.length (filter (fun r => notna (key r)) l)).
Proof.
  unfold groupby, size, group.
  apply (series_sum_counts_all key l); [apply group_keys_NoDup|].
  intros r k I E. apply in_group_keys. now exists r.
Qed.

Lemma group_size_positive key l r k :
  In r l -> key r = Some k -> 1 <= size (group key k l).
Proof.
  intros I E. unfold size, group.
  assert (In r (filter (fun r => eq_val (key r) k) l)) as H.
  { apply filter_In. split; [exact I|]. unfold eq_val. rewrite E.
    apply String.eqb_refl. }
  destruct (filter (fun r => eq_val (key r) k) l); [destruct H | simpl; lia].
Qed.

Lemma in_firstn {A} n (l : list A) x : In x (firstn n l) -> In x l.
Proof.
  intros H. rewrite <- (firstn_skipn n l). apply in_or_app. now left.
Qed.

Lemma NoDup_firstn {A} n (l : list A) : NoDup l -> NoDup (firstn n l).
Proof.
  intros N. rewrite <- (firstn_skipn n l) in N. now apply NoDup_app_remove_r in N.
Qed.

Lemma groupby_labels {V} key (agg : list Row -> V) l :
  map fst (groupby key agg l) = group_keys key l.
Proof.
  unfold groupby. rewrite map_map. simpl. apply map_id.
Qed.

(** X6 (my_dashboard1.py, top_buyers): the table lists at most ten buyers,
    each once, with the number of trust purchases made under that name, which
    is at least 1, larger numbers first; the numbers add up to no more than
    Purchases by Trusts; and the buyer is the School Match when the sheet has
    no Buyer Name column. *)
Theorem top_buyers_counts (sales_df : DataFrame) :
  (forall b n, In (b, n) (Dashboard1.top_buyers sales_df) ->
     1 <= n
     /\ n = Z.of_nat (List.length
              (filter (fun r => eq_val (Dashboard1.buyer_col sales_df r) b)
                      (rows (Dashboard1.trust_purchases sales_df)))))
  /\ StronglySorted (fun a b => snd b <= snd a) (Dashboard1.top_buyers sales_df)
  /\ NoDup (map fst (Dashboard1.top_buyers sales_df))
  /\ (List.length (Dashboard1.top_buyers sales_df) <= 10)%nat
  /\ series_sum (Dashboard1.top_buyers sales_df)
     <= Dashboard1.num_trust_purchases sales_df
  /\ (~ In "Buyer Name" (columns sales_df) ->
      Dashboard1.buyer_col sales_df = School_Match).
Proof.
  unfold Dashboard1.top_buyers, head.
  set (key := Dashboard1.buyer_col sales_df).
  set (l := rows (Dashboard1.trust_purchases sales_df)).
  assert (forall b n, In (b, n) (sort_values_desc (groupby key size l)) ->
            1 <= n /\ n = size (group key b l)) as G.
  { intros b n H. apply in_sort_values_desc, in_groupby in H.
    destruct H as [(r & I & E) ->]. split; [|reflexivity].
    now apply (group_size_positive key l r). }
  split; [intros b n H; apply in_firstn in H; now apply G|].
  split; [apply firstn_sorted, sort_values_desc_sorted|].
  split.
  { rewrite <- firstn_map. apply NoDup_firstn.
    eapply Permutation_NoDup.
    - symmetry. apply Permutation_map, sort_values_desc_perm.
    - rewrite groupby_labels. apply group_keys_NoDup. }
  split; [apply firstn_le_length|].
  split.
  { etransitivity; [apply series_sum_firstn|].
    - apply Forall_forall. intros [b n] H. apply G in H. simpl. lia.
    - rewrite (series_sum_perm _ _ (sort_values_desc_perm _)), groupby_size_sum.
      unfold Dashboard1.num_trust_purchases. fold l.
      apply inj_le, length_filter_le. }
  intros N. unfold key, Dashboard1.buyer_col.
  destruct (existsb (String.eqb "Buyer Name") (columns sales_df)) eqn:E;
    [|reflexivity].
  apply existsb_exists in E. destruct E as (h & I & E).
  apply String.eqb_eq in E. subst h. contradiction.
Qed.

Lemma length_filter_map {A B} (f : A -> B) (p : B -> bool) l :
  List.length (filter p (map f l)) = List.length (filter (fun x => p (f x)) l).
Proof.
  induction l as [|x l IH]; simpl; [reflexivity|].
  destruct (p (f x)); simpl; now rewrite IH.
Qed.

Lemma value_counts_column (col : Row -> cell) l :
  Spec.counts_column col l (value_counts (map col l)).
Proof.
  unfold value_counts.
  set (ks := unique String.eqb (dropna (map col l))).
  assert (forall v, In v ks <-> exists r, In r l /\ col r = Some v) as K.
  { intros v. unfold ks.
    rewrite (in_unique _ String.eqb_eq), in_dropna, in_map_iff.
    split; intros (r & H1 & H2); exists r; tauto. }
  assert (forall v n,
    In (v, n) (sort_values_desc
      (map (fun v => (v, Z.of_nat (List.length
                            (filter (fun c => eq_val c v) (map col l))))) ks))
    <-> (exists r, In r l /\ col r = Some v)
        /\ n = Z.of_nat (List.length (filter (fun r => eq_val (col r) v) l))) as M.
  { intros v n. rewrite in_sort_values_desc, in_map_iff, <- K. split.
    - intros (v' & [= <- <-] & I). split; [exact I|]. now rewrite length_filter_map.
    - intros [I ->]. exists v. split; [now rewrite length_filter_map | exact I]. }
  split; [exact M|]. split.
  { intros v n H. apply M in H. destruct H as [(r & I & E) ->].
    now apply (group_size_positive col l r). }
  split; [apply sort_values_desc_sorted|]. split.
  { eapply Permutation_NoDup.
    - symmetry. apply Permutation_map, sort_values_desc_perm.
    - rewrite map_map. simpl. rewrite map_id. apply NoDup_unique, String.eqb_eq. }
  rewrite (series_sum_perm _ _ (sort_values_desc_perm _)).
  rewrite (series_sum_counts_all (fun c : cell => c) (map col l) ks).
  - now rewrite length_filter_map.
  - apply NoDup_unique, String.eqb_eq.
  - intros c k I E. subst c. unfold ks.
    now apply (in_unique _ String.eqb_eq), in_dropna.
Qed.

(** X7 (value_counts charts of both scripts): the Orders by School Type
    and Orders by Region charts have one bar per value present in the
    education subset, as high as the number of education sales with that
    value, highest first; the bars add up to the number of education sales
    that have a value in the column, so sales with a missing cell are in no
    bar. *)
Theorem orders_charts_count_rows (edu : DataFrame) :
  Spec.counts_column School_Type (rows edu) (Dashboard1.school_types edu)
  /\ Spec.counts_column Region (rows edu) (Dashboard1.regions edu)
  /\ Spec.counts_column Type_ (rows edu) (Dashboard.school_types edu)
  /\ Spec.counts_column Region (rows edu) (Dashboard.orders_by_region edu).
Proof.
  split; [|split; [|split]]; apply value_counts_column.
Qed.

End Counting.

(** ** Schools reached and the repeat-order rate *)
Section Schools.
Import Pandas.

Lemma length_unique_le {A} (eqb : A -> A -> bool) l :
  (List.length (unique eqb l) <= List.length l)%nat.
Proof.
  induction l as [|x l IH]; simpl; [lia|].
  pose proof (length_filter_le (fun y => negb (eqb y x)) (unique eqb l)). lia.
Qed.

Lemma length_dropna_le {A} (l : list (option A)) :
  (List.length (dropna l) <= List.length l)%nat.
Proof.
  induction l as [|[x|] l IH]; simpl; lia.
Qed.

Lemma nunique_str_le_length cells :
  0 <= nunique_str cells <= Z.of_nat (List.length cells).
Proof.
  unfold nunique_str.
  pose proof (length_unique_le String.eqb (dropna cells)).
  pose proof (length_dropna_le cells). unfold cell in *. lia.
Qed.

(** Distinct values of a part are distinct values of the whole. *)
Lemma nunique_str_incl cells cells' :
  (forall s, In (Some s) cells -> In (Some s) cells') ->
  nunique_str cells <= nunique_str cells'.
Proof.
  intros H. unfold nunique_str. apply inj_le, NoDup_incl_length.
  - apply NoDup_unique, String.eqb_eq.
  - intros s I. apply (in_unique _ String.eqb_eq), in_dropna.
    apply (in_unique _ String.eqb_eq), in_dropna in I. now apply H.
Qed.

Lemma length_group_keys key l :
  Z.of_nat (List.length (group_keys key l)) = nunique_str (map key l).
Proof.
  unfold group_keys, nunique_str. f_equal.
  apply Permutation_length, sort_keys_perm.
Qed.

Lemma repeat_count_le edu :
  0 <= Dashboard.repeat_count edu <= Dashboard.schools_reached edu.
Proof.
  unfold Dashboard.repeat_count, Dashboard.repeat_orders, Dashboard.schools_reached.
  rewrite <- length_group_keys.
  pose proof (length_filter_le (fun kv : string * Z => 1 <? snd kv)
    (groupby School_Match (fun g => nunique_Z (map Order_ID g)) (rows edu))) as L.
  unfold groupby in L at 2. rewrite length_map in L. lia.
Qed.

Lemma percentage_bounds a b :
  0 <= a <= b -> 0 < b ->
  (0 <= inject_Z a / inject_Z b * inject_Z 100
   /\ inject_Z a / inject_Z b * inject_Z 100 <= 100)%Q.
Proof.
  intros H Hb. destruct b as [|p|p]; try lia.
  unfold Qle, Qmult, Qdiv, Qinv, inject_Z. simpl. split; nia.
Qed.

(** X8 (repeat_order_rate, both scripts): the schools with more than one
    order are never more than the schools reached.  The rate of
    my_dashboard1.py is always a number between 0 and 100.  The rate of the
    other script is a number between 0 and 100 when a school is reached, and
    NaN when none is. *)
Theorem repeat_order_rate_range (edu : DataFrame) :
  0 <= Dashboard1.repeat_count edu <= Dashboard1.schools_reached edu
  /\ (exists q, Dashboard1.repeat_order_rate edu = Fin q
                /\ (0 <= q)%Q /\ (q <= 100)%Q)
  /\ (Dashboard.schools_reached edu <> 0 ->
      exists q, Dashboard.repeat_order_rate edu = Fin q
                /\ (0 <= q)%Q /\ (q <= 100)%Q)
  /\ (Dashboard.schools_reached edu = 0 ->
      Dashboard.repeat_order_rate edu = NaN).
Proof.
  pose proof (repeat_count_le edu) as C.
  split; [exact C|].
  assert (Dashboard.schools_reached edu <> 0 ->
          exists q, Dashboard.repeat_order_rate edu = Fin q
                    /\ (0 <= q)%Q /\ (q <= 100)%Q) as R.
  { intros N. unfold Dashboard.repeat_order_rate, true_divide, times.
    destruct (Z.eqb_spec (Dashboard.schools_reached edu) 0) as [E|_];
      [contradiction|].
    eexists. split; [reflexivity|]. apply percentage_bounds; lia. }
  split; [|split; [exact R | apply Dashboard_repeat_order_rate_unguarded]].
  unfold Dashboard1.repeat_order_rate.
  destruct (Z.eqb_spec (Dashboard1.schools_reached edu) 0) as [E|N]; simpl.
  - exists 0%Q. split; [reflexivity|]. split; unfold Qle; simpl; lia.
  - exact (R N).
Qed.

(** Both a school reached and none. *)
Lemma repeat_order_rate_range_witness :
  Dashboard.schools_reached (Dashboard.edu_df Samples.three_sales) <> 0
  /\ (exists q, Dashboard.repeat_order_rate (Dashboard.edu_df Samples.three_sales)
                = Fin q /\ (0 <= q)%Q /\ (q <= 100)%Q)
  /\ Dashboard.schools_reached (Dashboard.edu_df Samples.no_school) = 0
  /\ Dashboard.repeat_order_rate (Dashboard.edu_df Samples.no_school) = NaN.
Proof.
  assert (Dashboard.schools_reached (Dashboard.edu_df Samples.three_sales) <> 0)
    as N by discriminate.
  destruct (repeat_order_rate_range (Dashboard.edu_df Samples.three_sales))
    as (_ & _ & R & _).
  destruct (repeat_order_rate_range (Dashboard.edu_df Samples.no_school))
    as (_ & _ & _ & Z).
  split; [exact N|]. split; [exact (R N)|]. split; [reflexivity|].
  apply Z. reflexivity.
Defined.

Lemma Dashboard_edu_rows_matched sales_df r :
  In r (rows (Dashboard.edu_df sales_df)) -> exists s, School_Match r = Some s.
Proof.
  intros H. apply in_select in H. destruct H as [_ M].
  apply Dashboard_edu_mask_true in M. destruct M as (s & E & _). now exists s.
Qed.

(** X9 (my_dashboard .py, schools_reached and num_sales_to_schools): the
    schools reached are never more than the sales to schools, which are never
    more than the sales; and no school is reached exactly when there is no
    sale to a school. *)
Theorem schools_reached_and_sales (sales_df : DataFrame) :
  0 <= Dashboard.schools_reached (Dashboard.edu_df sales_df)
  /\ Dashboard.schools_reached (Dashboard.edu_df sales_df)
     <= Dashboard.num_sales_to_schools (Dashboard.edu_df sales_df)
  /\ Dashboard.num_sales_to_schools (Dashboard.edu_df sales_df)
     <= Z.of_nat (List.length (rows sales_df))
  /\ (Dashboard.schools_reached (Dashboard.edu_df sales_df) = 0
      <-> Dashboard.num_sales_to_schools (Dashboard.edu_df sales_df) = 0).
Proof.
  unfold Dashboard.schools_reached, Dashboard.num_sales_to_schools.
  pose proof (nunique_str_le_length
                (map School_Match (rows (Dashboard.edu_df sales_df)))) as L.
  rewrite length_map in L.
  split; [lia|]. split; [lia|].
  split; [apply inj_le, length_filter_le|].
  split; [|lia].
  intros Z. destruct (rows (Dashboard.edu_df sales_df)) as [|r l] eqn:E;
    [reflexivity|].
  destruct (Dashboard_edu_rows_matched sales_df r) as (s & Es);
    [rewrite E; now left|].
  simpl in Z. rewrite Es in Z. unfold nunique_str in Z. simpl in Z. lia.
Qed.

(** X10 (my_dashboard .py, unique_trust_schools): when the Trust Match
    column of the Sales table holds a text, lines 100 and 101 give two
    numbers, and the schools with a trust-matched sale are never more than
    the trust-matched sales, nor than the schools reached; on a table with
    rows and no Trust Match text the [.str] accessor of these lines raises. *)
Theorem unique_trust_schools_bounds (sales_df : DataFrame)
    (Htext : exists r s, In r (rows sales_df) /\ Trust_Match r = Some s) :
  (exists sales schools,
      Dashboard.total_trust_matched_sales_result sales_df = Some sales
      /\ Dashboard.unique_trust_schools_result sales_df = Some schools
      /\ 0 <= schools /\ schools <= sales
      /\ schools <= Dashboard.schools_reached (Dashboard.edu_df sales_df))
  /\ (forall df, rows df <> [] ->
      (forall r, In r (rows df) -> Trust_Match r = None) ->
      Dashboard.total_trust_matched_sales_result df = None
      /\ Dashboard.unique_trust_schools_result df = None).
Proof.
  split.
  - destruct Htext as (r & s & I & E).
    unfold Dashboard.total_trust_matched_sales_result,
      Dashboard.unique_trust_schools_result.
    rewrite (text_column_holds_text _ s) by (apply in_map_iff; now exists r).
    eexists. eexists. split; [reflexivity|]. split; [reflexivity|].
    unfold Dashboard.unique_trust_schools, Dashboard.total_trust_matched_sales,
      Dashboard.schools_reached.
    pose proof (nunique_str_le_length
      (map School_Match
         (rows (select Dashboard.trust_mask (Dashboard.edu_df sales_df))))) as L.
    rewrite length_map in L.
    split; [lia|]. split; [lia|].
    apply nunique_str_incl. intros s' I'.
    apply in_map_iff in I'. destruct I' as (r' & E' & I').
    apply in_select in I'. apply in_map_iff. exists r'. tauto.
  - intros df N A.
    unfold Dashboard.total_trust_matched_sales_result,
      Dashboard.unique_trust_schools_result.
    rewrite text_column_no_text; [split; reflexivity | |].
    + destruct (rows df); [contradiction | discriminate].
    + intros c I. apply in_map_iff in I. destruct I as (r & <- & I). now apply A.
Qed.

(** Five trust values for one school: three trust-matched sales, one
    school. *)
Lemma unique_trust_schools_bounds_witness :
  (exists r s, In r (rows Samples.five_trust_values) /\ Trust_Match r = Some s)
  /\ Dashboard.total_trust_matched_sales_result Samples.five_trust_values = Some 3
  /\ Dashboard.unique_trust_schools_result Samples.five_trust_values = Some 1
  /\ Dashboard.unique_trust_schools_result Samples.three_sales = None.
Proof.
  assert (exists r s, In r (rows Samples.five_trust_values)
                      /\ Trust_Match r = Some s) as H.
  { eexists. exists "Trust". split; [left; reflexivity | reflexivity]. }
  destruct (unique_trust_schools_bounds Samples.five_trust_values H)
    as (_ & N).
  split; [exact H|]. split; [reflexivity|]. split; [reflexivity|].
  apply (N Samples.three_sales); [discriminate|].
  intros r [<- | [<- | [<- | []]]]; reflexivity.
Defined.

End Schools.

(** ** The choices of the select boxes *)
Section Choices.
Import Pandas.

Lemma in_options cells v :
  In v (options cells) <-> v = "All" \/ In (Some v) cells.
Proof.
  unfold options. simpl. split.
  - intros [<- | H]; [now left | right].
    apply (Permutation_in _ (sort_keys_perm _)) in H.
    now apply (in_unique _ String.eqb_eq), in_dropna in H.
  - intros [-> | H]; [now left | right].
    apply (Permutation_in _ (Permutation_sym (sort_keys_perm _))).
    now apply (in_unique _ String.eqb_eq), in_dropna.
Qed.

(** A choice taken from the options of a column keeps a row. *)
Lemma option_keeps_rows col df v :
  rows df <> [] -> In v (options (map col (rows df))) ->
  rows (Dashboard.apply_filter col v df) <> [].
Proof.
  intros N I. unfold Dashboard.apply_filter.
  destruct (String.eqb v "All") eqn:E; simpl; [exact N|].
  apply in_options in I. destruct I as [-> | I]; [discriminate|].
  apply in_map_iff in I. destruct I as (r & Er & I).
  assert (In r (filter (fun r => eq_val (col r) v) (rows df))) as H.
  { apply filter_In. split; [exact I|]. unfold eq_val. rewrite Er.
    apply String.eqb_refl. }
  intros Z. rewrite Z in H. destruct H.
Qed.

(** X11 (my_dashboard .py, side bar): each of the Region, School Type and
    Type boxes offers the values of the frame as filtered so far, so
    choices made from what the boxes offer, with Trust Match left on 'All',
    never filter every sale away. *)
Theorem offered_choices_keep_rows (sales_df : DataFrame)
    (region_filter school_type_filter type_filter : string)
    (Hrows : rows sales_df <> [])
    (Hregion : In region_filter (Dashboard.region_options (copy sales_df)))
    (Hschool : In school_type_filter
       (Dashboard.school_type_options
          (Dashboard.apply_filter Region region_filter (copy sales_df))))
    (Htype : In type_filter
       (Dashboard.type_options
          (Dashboard.apply_filter School_Type school_type_filter
             (Dashboard.apply_filter Region region_filter (copy sales_df))))) :
  rows (Dashboard.filtered_df sales_df region_filter school_type_filter
          type_filter "All") <> [].
Proof.
  unfold Dashboard.filtered_df.
  change (Dashboard.apply_filter Trust_Match "All" ?d) with d.
  apply option_keeps_rows; [|exact Htype].
  apply option_keeps_rows; [|exact Hschool].
  apply option_keeps_rows; [exact Hrows | exact Hregion].
Qed.

(** Region Leeds chosen in the example scenario. *)
Lemma offered_choices_keep_rows_witness :
  rows (Dashboard.filtered_df Samples.three_sales "Leeds" "All" "All" "All")
  <> [].
Proof.
  apply (offered_choices_keep_rows Samples.three_sales "Leeds" "All" "All").
  - discriminate.
  - simpl. tauto.
  - simpl. tauto.
  - simpl. tauto.
Defined.

(** X12 (my_dashboard1.py, side bar): the Region box, filled from the
    cleaned education subset, offers trimmed, title-cased texts; it offers
    "Nan" when an education sale has no Region; and a single choice made
    from what a box offers keeps a sale. *)
Theorem cleaned_region_choices (edu : DataFrame) :
  (forall v, In v (Dashboard1.region_options (Dashboard1.clean_Region edu)) ->
     v = "All" \/ (PyStr.strip v = v /\ PyStr.title v = v))
  /\ (forall r, In r (rows edu) -> Region r = None ->
     In "Nan" (Dashboard1.region_options (Dashboard1.clean_Region edu)))
  /\ (forall v, rows edu <> [] ->
     In v (Dashboard1.region_options (Dashboard1.clean_Region edu)) ->
     rows (Dashboard1.filtered_df (Dashboard1.clean_Region edu) v "All") <> [])
  /\ (forall v, rows edu <> [] ->
     In v (Dashboard1.school_type_options (Dashboard1.clean_Region edu)) ->
     rows (Dashboard1.filtered_df (Dashboard1.clean_Region edu) "All" v) <> []).
Proof.
  split; [|split; [|split]].
  - intros v H. apply in_options in H. destruct H as [-> | H]; [now left | right].
    rewrite clean_Region_rows, map_map in H. apply in_map_iff in H.
    destruct H as (r & [= <-] & _).
    now rewrite strip_title, strip_idem, title_idem.
  - intros r I E. apply in_options. right.
    rewrite clean_Region_rows, map_map. apply in_map_iff.
    exists r. split; [|exact I]. simpl.
    unfold Dashboard1.cleaned_Region. now rewrite E.
  - intros v N H. rewrite Dashboard1_filtered_df_filters.
    unfold Spec.apply_filters. simpl.
    change (Dashboard.apply_filter School_Type "All" ?d) with d.
    apply option_keeps_rows; [|exact H].
    rewrite clean_Region_rows. destruct (rows edu); [contradiction | discriminate].
  - intros v N H. rewrite Dashboard1_filtered_df_filters.
    unfold Spec.apply_filters. simpl.
    change (Dashboard.apply_filter Region "All" ?d) with d.
    apply option_keeps_rows; [|exact H].
    rewrite clean_Region_rows. destruct (rows edu); [contradiction | discriminate].
Qed.

(** A sale without Region next to the example's. *)
Lemma cleaned_region_choices_witness :
  In "Nan" (Dashboard1.region_options
              (Dashboard1.clean_Region
                 (Dashboard1.edu_df Samples.odd_regions)))
  /\ rows (Dashboard1.filtered_df
             (Dashboard1.clean_Region (Dashboard1.edu_df Samples.odd_regions))
             "Nan" "All") <> [].
Proof.
  destruct (cleaned_region_choices (Dashboard1.edu_df Samples.odd_regions))
    as (_ & H & K & _).
  assert (In "Nan" (Dashboard1.region_options
              (Dashboard1.clean_Region
                 (Dashboard1.edu_df Samples.odd_regions)))) as I.
  { apply (H (Samples.sale (Some "Oak Primary") 20 None None)); [|reflexivity].
    simpl. tauto. }
  split; [exact I|]. apply K; [discriminate | exact I].
Defined.

Lemma in_trust_options filtered v :
  In v (Dashboard.trust_options filtered) <->
  v = "All"
  \/ (v <> "" /\ exists r s, In r (rows filtered) /\ Trust_Match r = Some s
                             /\ PyStr.strip s = v).
Proof.
  unfold Dashboard.trust_options. simpl. split.
  - intros [<- | H]; [now left | right].
    apply (Permutation_in _ (sort_keys_perm _)) in H.
    apply (in_unique _ String.eqb_eq), filter_In in H. destruct H as [H N].
    apply negb_true_iff, String.eqb_neq in N. split; [exact N|].
    apply in_map_iff in H. destruct H as (s & E & H).
    apply in_dropna, in_map_iff in H. destruct H as (r & Er & I).
    now exists r, s.
  - intros [-> | (N & r & s & I & Er & E)]; [now left | right].
    apply (Permutation_in _ (Permutation_sym (sort_keys_perm _))).
    apply (in_unique _ String.eqb_eq), filter_In. split.
    + apply in_map_iff. exists s. split; [exact E|].
      apply in_dropna, in_map_iff. now exists r.
    + now apply negb_true_iff, String.eqb_neq.
Qed.

(** X13 (my_dashboard .py, Trust Match box): the box offers the trimmed
    Trust Match texts, never the empty one, while the filter compares the
    cells as they are; so when a Trust Match has blanks around it and no
    cell holds its trimmed text, the trimmed text is offered and choosing it
    leaves no sale. *)
Theorem trimmed_trust_choice_keeps_nothing (filtered : DataFrame)
    (r : Row) (s : string)
    (Hin : In r (rows filtered))
    (Hcell : Trust_Match r = Some s)
    (Hnot_blank : PyStr.strip s <> "")
    (Hnot_all : PyStr.strip s <> "All")
    (Hno_cell : forall r', In r' (rows filtered) ->
                  Trust_Match r' <> Some (PyStr.strip s)) :
  In (PyStr.strip s) (Dashboard.trust_options filtered)
  /\ (forall v, In v (Dashboard.trust_options filtered) ->
        v <> "" /\ (v = "All" \/ PyStr.strip v = v))
  /\ rows (Dashboard.apply_filter Trust_Match (PyStr.strip s) filtered) = []
  /\ Dashboard.filtered_sales_count
       (Dashboard.apply_filter Trust_Match (PyStr.strip s) filtered) = 0.
Proof.
  assert (rows (Dashboard.apply_filter Trust_Match (PyStr.strip s) filtered) = [])
    as Z.
  { change (rows (Spec.apply_filters [(Trust_Match, PyStr.strip s)] filtered) = []).
    apply (apply_filters_absent _ _ Trust_Match (PyStr.strip s));
      [now left | exact Hnot_all | exact Hno_cell]. }
  split; [apply in_trust_options; right; split; [exact Hnot_blank | now exists r, s]|].
  split.
  { intros v H. apply in_trust_options in H.
    destruct H as [-> | (N & r' & s' & _ & _ & <-)].
    - split; [discriminate | now left].
    - split; [exact N | right; apply strip_idem]. }
  split; [exact Z|].
  unfold Dashboard.filtered_sales_count. now rewrite Z.
Qed.

(** The Trust Match " Trust " is offered as "Trust", which no cell holds. *)
Lemma trimmed_trust_choice_keeps_nothing_witness :
  In "Trust" (Dashboard.trust_options Samples.padded_trust)
  /\ rows (Dashboard.apply_filter Trust_Match "Trust" Samples.padded_trust) = [].
Proof.
  destruct (trimmed_trust_choice_keeps_nothing Samples.padded_trust
              (Samples.sale (Some "Oak Primary") 40 (Some "Leeds") (Some " Trust "))
              " Trust ") as (H & _ & Z & _).
  - simpl. tauto.
  - reflexivity.
  - discriminate.
  - discriminate.
  - intros r' [<- | []]. discriminate.
  - split; [exact H | exact Z].
Defined.

End Choices.

(** ** The months of the two series *)
Section Months.
Import Pandas.

Lemma fold_min_in m ms : In (fold_right Z.min m ms) (m :: ms).
Proof.
  induction ms as [|y ms IH]; simpl; [now left|].
  destruct (Z.min_spec y (fold_right Z.min m ms)) as [[_ ->] | [_ ->]].
  - right. now left.
  - destruct IH as [E | I]; [now left | right; now right].
Qed.

Lemma fold_max_in m ms : In (fold_right Z.max m ms) (m :: ms).
Proof.
  induction ms as [|y ms IH]; simpl; [now left|].
  destruct (Z.max_spec y (fold_right Z.max m ms)) as [[_ ->] | [_ ->]].
  - destruct IH as [E | I]; [now left | right; now right].
  - right. now left.
Qed.

(** The bins of a series are the months between two dated rows. *)
Lemma resample_has_bin l b m1 m2 :
  In m1 (dropna (map month_of l)) -> In m2 (dropna (map month_of l)) ->
  m1 <= b <= m2 ->
  In (month_start b, sum_Item_Total (filter (in_month b) l)) (resample_MS_sum l).
Proof.
  intros I1 I2 B. unfold resample_MS_sum.
  destruct (dropna (map month_of l)) as [|m ms]; [destruct I1|].
  pose proof (fold_min_le m ms _ I1). pose proof (fold_max_ge m ms _ I2).
  apply in_map_iff. exists (Z.to_nat (b - fold_right Z.min m ms)).
  rewrite in_seq.
  replace (fold_right Z.min m ms + Z.of_nat (Z.to_nat (b - fold_right Z.min m ms)))
    with b by lia.
  split; [reflexivity | lia].
Qed.

Lemma resample_bin_between l label v :
  In (label, v) (resample_MS_sum l) ->
  exists b m1 m2,
    label = month_start b
    /\ v = sum_Item_Total (filter (in_month b) l)
    /\ In m1 (dropna (map month_of l)) /\ In m2 (dropna (map month_of l))
    /\ m1 <= b <= m2.
Proof.
  unfold resample_MS_sum.
  destruct (dropna (map month_of l)) as [|m ms] eqn:D; [intros []|].
  rewrite in_map_iff. intros (i & [= <- <-] & I). apply in_seq in I.
  pose proof (fold_min_le m ms _ (fold_max_in m ms)) as L.
  exists (fold_right Z.min m ms + Z.of_nat i),
         (fold_right Z.min m ms), (fold_right Z.max m ms).
  split; [reflexivity|]. split; [reflexivity|].
  split; [apply fold_min_in|]. split; [apply fold_max_in|]. lia.
Qed.

Lemma sum_filter_empty p l :
  (forall r, In r l -> p r = false) -> sum_Item_Total (filter p l) = 0.
Proof.
  intros H. induction l as [|r l IH]; simpl; [reflexivity|].
  rewrite (H r (or_introl eq_refl)). apply IH. intros r' I. apply H. now right.
Qed.

(** X14 (resample('MS'), both scripts): the monthly series has a bin for
    every month from the month of any dated sale to the month of any later
    one, holding the Item Total of the sales of that month, and 0 when that
    month has no sale; the bins are the months from the first to the last in
    calendar order, each once. *)
Theorem monthly_series_has_every_month (df : DataFrame) (r1 r2 : Row)
    (d1 d2 : Date) (b : Z)
    (Hr1 : In r1 (rows df)) (Hr2 : In r2 (rows df))
    (Hd1 : Order_Date r1 = Some d1) (Hd2 : Order_Date r2 = Some d2)
    (Hbetween : month_index d1 <= b <= month_index d2) :
  In (month_start b, sum_Item_Total (filter (in_month b) (rows df)))
     (Dashboard.monthly_sales df)
  /\ ((forall r, In r (rows df) -> month_of r <> Some b) ->
      In (month_start b, 0) (Dashboard.monthly_sales df))
  /\ (exists first n,
      map fst (Dashboard.monthly_sales df)
      = map (fun i => month_start (first + Z.of_nat i)) (seq 0 n)
      /\ first <= month_index d1 /\ month_index d2 < first + Z.of_nat n)
  /\ Dashboard1.monthly_sales df = Dashboard.monthly_sales df
  /\ Dashboard.monthly_edu df = Dashboard.monthly_sales df
  /\ Dashboard1.monthly_edu df = Dashboard.monthly_sales df.
Proof.
  pose proof (in_months _ _ _ Hr1 Hd1) as I1.
  pose proof (in_months _ _ _ Hr2 Hd2) as I2.
  assert (In (month_start b, sum_Item_Total (filter (in_month b) (rows df)))
             (Dashboard.monthly_sales df)) as B.
  { exact (resample_has_bin _ b _ _ I1 I2 Hbetween). }
  split; [exact B|]. split.
  { intros E. rewrite sum_filter_empty in B; [exact B|].
    intros r I. specialize (E r I). unfold in_month.
    destruct (month_of r) as [m|]; [|reflexivity].
    apply Z.eqb_neq. congruence. }
  split; [|repeat split].
  unfold Dashboard.monthly_sales, resample_MS_sum.
  destruct (dropna (map month_of (rows df))) as [|m ms]; [destruct I1|].
  pose proof (fold_min_le m ms _ I1). pose proof (fold_max_ge m ms _ I2).
  exists (fold_right Z.min m ms),
         (Z.to_nat (fold_right Z.max m ms - fold_right Z.min m ms + 1)).
  split; [|lia]. cbv zeta. rewrite map_map. reflexivity.
Qed.

(** January and March 2024: a bin for February, with 0. *)
Lemma monthly_series_has_every_month_witness :
  In (mkDate 2024 2 1, 0) (Dashboard.monthly_sales Samples.winter_sales)
  /\ Dashboard.monthly_sales Samples.winter_sales
     = [(mkDate 2024 1 1, 25); (mkDate 2024 2 1, 0); (mkDate 2024 3 1, 100)].
Proof.
  destruct (monthly_series_has_every_month Samples.winter_sales
              Samples.january_sale Samples.march_sale
              (mkDate 2024 1 9) (mkDate 2024 3 14) (2024 * 12 + 1))
    as (_ & H & _).
  - simpl. tauto.
  - simpl. tauto.
  - reflexivity.
  - reflexivity.
  - unfold month_index. simpl. lia.
  - split; [|reflexivity]. apply H.
    intros r [<- | [<- | []]]; discriminate.
Defined.

Lemma months_of_filter mask l m :
  In m (dropna (map month_of (filter mask l))) -> In m (dropna (map month_of l)).
Proof.
  rewrite !in_dropna, !in_map_iff. intros (r & E & I).
  apply filter_In in I. exists r. tauto.
Qed.

(** X15 (monthly_edu against monthly_sales, both scripts): every month of
    the education series is a month of the all-sales series, so the two
    lines of the trend chart share their dates. *)
Theorem monthly_edu_within_monthly_sales (sales_df : DataFrame) (label : Date)
    (Hlabel : In label (map fst (Dashboard.monthly_edu (Dashboard.edu_df sales_df)))
              \/ In label (map fst (Dashboard1.monthly_edu
                                      (Dashboard1.edu_df sales_df)))) :
  In label (map fst (Dashboard.monthly_sales sales_df))
  /\ In label (map fst (Dashboard1.monthly_sales sales_df)).
Proof.
  assert (forall mask,
    In label (map fst (resample_MS_sum (filter mask (rows sales_df)))) ->
    In label (map fst (resample_MS_sum (rows sales_df)))) as H.
  { intros mask I. apply in_map_iff in I. destruct I as ([lab v] & E & I).
    simpl in E. subst lab. apply resample_bin_between in I.
    destruct I as (b & m1 & m2 & -> & _ & I1 & I2 & B).
    apply months_of_filter in I1, I2.
    apply in_map_iff.
    exists (month_start b, sum_Item_Total (filter (in_month b) (rows sales_df))).
    split; [reflexivity | exact (resample_has_bin _ b _ _ I1 I2 B)]. }
  assert (In label (map fst (resample_MS_sum (rows sales_df)))) as R.
  { destruct Hlabel as [I | I]; exact (H _ I). }
  split; exact R.
Qed.

(** March 2024 is a month of both series. *)
Lemma monthly_edu_within_monthly_sales_witness :
  In (mkDate 2024 3 1)
     (map fst (Dashboard.monthly_edu (Dashboard.edu_df Samples.one_undated)))
  /\ In (mkDate 2024 3 1) (map fst (Dashboard.monthly_sales Samples.one_undated)).
Proof.
  assert (In (mkDate 2024 3 1)
            (map fst (Dashboard.monthly_edu (Dashboard.edu_df Samples.one_undated))))
    as I by (simpl; tauto).
  split; [exact I|].
  exact (proj1 (monthly_edu_within_monthly_sales Samples.one_undated
                  (mkDate 2024 3 1) (or_introl I))).
Defined.

End Months.

(** ** Breakdowns against the revenue figures *)
Section Totals.
Import Pandas.

(** Group sums add up to the revenue of the rows that hold one of the
    labels. *)
Lemma series_sum_groups key l ks :
  NoDup ks ->
  series_sum (map (fun k => (k, sum_Item_Total (group key k l))) ks)
  = sum_Item_Total (filter (fun r => existsb (eq_val (key r)) ks) l).
Proof.
  unfold group. induction 1 as [|k ks N D IH]; simpl.
  - symmetry. apply sum_filter_none.
  - rewrite IH, sum_filter_or; [reflexivity|].
    intros r. destruct (eq_val (key r) k) eqn:E; [|reflexivity].
    destruct (existsb (eq_val (key r)) ks) eqn:X; [|reflexivity].
    apply existsb_eq_val in X. destruct X as (k' & Ek & I).
    unfold eq_val in E. rewrite Ek in E. apply String.eqb_eq in E.
    subst. contradiction.
Qed.

Lemma groupby_sum_total key l :
  series_sum (groupby key sum_Item_Total l)
  = sum_Item_Total (filter (fun r => notna (key r)) l).
Proof.
  unfold groupby. rewrite series_sum_groups; [|apply group_keys_NoDup].
  f_equal. apply filter_ext_in. intros r I.
  destruct (key r) as [k|] eqn:E; simpl.
  - apply existsb_eq_val. exists k. split; [reflexivity|].
    apply in_group_keys. now exists r.
  - destruct (existsb (eq_val None) (group_keys key l)) eqn:X; [|reflexivity].
    apply existsb_eq_val in X. destruct X as (k & Ek & _). discriminate.
Qed.

Lemma filter_all {A} (p : A -> bool) l :
  (forall x, In x l -> p x = true) -> filter p l = l.
Proof.
  intros H. induction l as [|x l IH]; simpl; [reflexivity|].
  rewrite (H x (or_introl eq_refl)). f_equal. apply IH.
  intros y I. apply H. now right.
Qed.

(** X16 (my_dashboard .py, region_sales_all): for amounts that add up
    exactly, the regional breakdown leaves no sale out: its bars add up to
    Total Revenue. *)
Theorem region_sales_all_adds_up (sales_df : DataFrame)
    (Hexact : exact_sums (rows sales_df)) :
  series_sum (Dashboard.region_sales_all (Dashboard.add_Region_clean sales_df))
  = Dashboard.total_revenue sales_df.
Proof.
  unfold Dashboard.region_sales_all, Dashboard.add_Region_clean, assign_extra.
  simpl.
  rewrite (series_sum_perm _ _ (sort_values_desc_perm _)).
  rewrite (groupby_sum_map _
             (fun r => Some (PyStr.strip (astype_str (Region r))))
             (column "Region_clean"));
    [| intros r; unfold column; simpl; apply get_set_assoc | reflexivity].
  rewrite groupby_sum_total. unfold Dashboard.total_revenue.
  f_equal. now apply filter_all.
Qed.

(** The example scenario: bars of 100, 50 and 25, a total of 175. *)
Lemma region_sales_all_adds_up_witness :
  exact_sums (rows Samples.three_sales)
  /\ series_sum (Dashboard.region_sales_all
                   (Dashboard.add_Region_clean Samples.three_sales))
     = Dashboard.total_revenue Samples.three_sales.
Proof.
  assert (exact_sums (rows Samples.three_sales)) as X by reflexivity.
  split; [exact X | exact (region_sales_all_adds_up Samples.three_sales X)].
Defined.

(** X17 (top_schools and region_sales against edu_revenue), for amounts
    that add up exactly: in my_dashboard .py the revenues of all schools add
    up to Education Revenue, and so does the Top 10 table when at most ten
    schools are reached.  In my_dashboard1.py the revenues of all schools
    add up to the Education Revenue of the sales that have a School Match,
    and the bars of the regional breakdown, taken of the cleaned subset, to
    that of the sales with a valid Region. *)
Theorem school_revenues_add_up (sales_df edu : DataFrame)
    (Hexact : exact_sums (rows sales_df))
    (Hexact_edu : exact_sums (rows edu)) :
  series_sum (groupby School_Match sum_Item_Total
                (rows (Dashboard.edu_df sales_df)))
  = Dashboard.edu_revenue (Dashboard.edu_df sales_df)
  /\ (Dashboard.schools_reached (Dashboard.edu_df sales_df) <= 10 ->
      series_sum (Dashboard.top_schools (Dashboard.edu_df sales_df))
      = Dashboard.edu_revenue (Dashboard.edu_df sales_df))
  /\ series_sum (groupby School_Match sum_Item_Total (rows edu))
     = sum_Item_Total (filter (fun r => notna (School_Match r)) (rows edu))
  /\ series_sum (Dashboard1.region_sales (Dashboard1.clean_Region edu))
     = Dashboard1.edu_revenue
         (Dashboard1.valid_regions_df (Dashboard1.clean_Region edu)).
Proof.
  assert (series_sum (groupby School_Match sum_Item_Total
                        (rows (Dashboard.edu_df sales_df)))
          = Dashboard.edu_revenue (Dashboard.edu_df sales_df)) as E.
  { rewrite groupby_sum_total. unfold Dashboard.edu_revenue. f_equal.
    apply filter_all. intros r I.
    destruct (Dashboard_edu_rows_matched sales_df r I) as (s & ->). reflexivity. }
  split; [exact E|]. split; [|split].
  - intros L. rewrite <- E. unfold Dashboard.top_schools, head.
    rewrite firstn_all2.
    + apply series_sum_perm, sort_values_desc_perm.
    + rewrite (Permutation_length (sort_values_desc_perm _)).
      unfold groupby. rewrite length_map.
      unfold Dashboard.schools_reached in L. rewrite <- length_group_keys in L.
      lia.
  - apply groupby_sum_total.
  - unfold Dashboard1.region_sales, Dashboard1.edu_revenue.
    rewrite (series_sum_perm _ _ (sort_values_desc_perm _)), groupby_sum_total.
    f_equal. apply filter_all. intros r I.
    apply in_select in I. destruct I as [I _].
    rewrite clean_Region_rows in I. apply in_map_iff in I.
    destruct I as (r0 & <- & _). reflexivity.
Qed.

(** The example scenario adds up exactly and reaches fewer than ten
    schools. *)
Lemma school_revenues_add_up_witness :
  exact_sums (rows Samples.three_sales)
  /\ Dashboard.schools_reached (Dashboard.edu_df Samples.three_sales) <= 10
  /\ series_sum (Dashboard.top_schools (Dashboard.edu_df Samples.three_sales))
     = Dashboard.edu_revenue (Dashboard.edu_df Samples.three_sales).
Proof.
  assert (exact_sums (rows Samples.three_sales)) as X by reflexivity.
  assert (Dashboard.schools_reached (Dashboard.edu_df Samples.three_sales) <= 10)
    as L by (vm_compute; discriminate).
  split; [exact X|]. split; [exact L|].
  exact (proj1 (proj2 (school_revenues_add_up Samples.three_sales
                         Samples.three_sales X X)) L).
Defined.

(** X18 (the filtered frame, both scripts): with every box on 'All' the
    filtered frame is the frame itself; filtering a filtered frame by the
    same choices changes nothing; the filtered frame never has more rows
    than the frame; and when the Item Totals add up exactly and none is
    negative its revenue is at most the revenue of the frame. *)
Theorem filtered_df_refines (sales_df : DataFrame)
    (region_filter school_type_filter type_filter trust_filter : string) :
  Dashboard.filtered_df sales_df "All" "All" "All" "All" = sales_df
  /\ Dashboard1.filtered_df sales_df "All" "All" = sales_df
  /\ Dashboard.filtered_df
       (Dashboard.filtered_df sales_df region_filter school_type_filter
          type_filter trust_filter)
       region_filter school_type_filter type_filter trust_filter
     = Dashboard.filtered_df sales_df region_filter school_type_filter
         type_filter trust_filter
  /\ Dashboard1.filtered_df
       (Dashboard1.filtered_df sales_df region_filter school_type_filter)
       region_filter school_type_filter
     = Dashboard1.filtered_df sales_df region_filter school_type_filter
  /\ Dashboard.filtered_sales_count
       (Dashboard.filtered_df sales_df region_filter school_type_filter
          type_filter trust_filter)
     <= Z.of_nat (List.length (rows sales_df))
  /\ (exact_sums (rows sales_df) ->
      Forall (fun r => 0 <= amount r) (rows sales_df) ->
      Dashboard.filtered_sales_total
        (Dashboard.filtered_df sales_df region_filter school_type_filter
           type_filter trust_filter)
      <= Dashboard.total_revenue sales_df).
Proof.
  rewrite !Dashboard_filtered_df_filters, !Dashboard1_filtered_df_filters.
  split; [reflexivity|]. split; [reflexivity|].
  split; [|split; [|split]].
  - apply frame_eq; [now rewrite !columns_apply_filters|].
    rewrite !rows_apply_filters. apply filter_idem.
  - apply frame_eq; [now rewrite !columns_apply_filters|].
    rewrite !rows_apply_filters. apply filter_idem.
  - unfold Dashboard.filtered_sales_count. rewrite rows_apply_filters.
    apply inj_le, length_filter_le.
  - intros _ F. unfold Dashboard.filtered_sales_total, Dashboard.total_revenue.
    rewrite rows_apply_filters. now apply sum_filter_le.
Qed.

(** The example scenario filtered by Region London. *)
Lemma filtered_df_refines_witness :
  exact_sums (rows Samples.three_sales)
  /\ Forall (fun r => 0 <= amount r) (rows Samples.three_sales)
  /\ Dashboard.filtered_sales_total
       (Dashboard.filtered_df Samples.three_sales "London" "All" "All" "All")
     <= Dashboard.total_revenue Samples.three_sales.
Proof.
  assert (Forall (fun r => 0 <= amount r) (rows Samples.three_sales)) as H.
  { repeat constructor; discriminate. }
  assert (exact_sums (rows Samples.three_sales)) as X by reflexivity.
  split; [exact X|]. split; [exact H|].
  destruct (filtered_df_refines Samples.three_sales "London" "All" "All" "All")
    as (_ & _ & _ & _ & _ & T).
  exact (T X H).
Defined.

End Totals.
